(** * mcp-chat: the chat layer over an MCP server (src/mcp-chat.ts)

    A shallow embedding of [parseChatProtocolUrl] and of the class
    [MCPMessageBus]: protocol discovery, the five request handlers that
    [attach] installs on the host, the capture of later registrations, and
    the notification entry point [updateResource].

    Conventions.
    - A JavaScript string is its sequence of UTF-16 code units, [list N].
    - A value of type [any] is a [Value]: JSON data plus [undefined].
    - Code that awaits functions supplied by the embedding application is
      written in a state-and-exception monad [M] over the application's own
      state [Ext]; every call that leaves the class is recorded in a log. *)

From Corelib Require Import PrimFloat.
From stdpp Require Import gmap list strings.

Set Default Proof Using "Type".

(** ** JavaScript strings *)

(** An ASCII literal as a sequence of code units. *)
Definition js (s : string) : list N :=
  (λ a, Ascii.N_of_ascii a) <$> String.list_ascii_of_string s.

Definition colon : N := 58.

(** The code units that [.] refuses in a regular expression without the
    [s] flag: LF, CR, U+2028 and U+2029. *)
Definition isLineTerminator (c : N) : bool :=
  bool_decide (c = 10 ∨ c = 13 ∨ c = 8232 ∨ c = 8233)%N.

(** The classes of the pattern: anything but a colon, and [.]. *)
Definition notColon (c : N) : bool := negb (bool_decide (c = colon)).
Definition notLineTerminator (c : N) : bool := negb (isLineTerminator c).

(** ** Regular expressions

    The fragment the source uses: the start anchor, literal code units,
    greedy repetitions of one class of code units, and capturing groups
    that do not nest, written as their two parentheses. *)
Inductive Node :=
  | Start                       (* ^ *)
  | Lit (c : N)                 (* a code unit standing for itself *)
  | Star (accept : N → bool)    (* x* for a class or for . *)
  | Plus (accept : N → bool)    (* x+ *)
  | Open                        (* ( *)
  | Close.                      (* ) *)

(** The greedy loop: take one more code unit while the class accepts it,
    and hand the rest to [k]; when [k] fails, give the last one back. *)
Fixpoint greedy (accept : N → bool)
    (k : list N → list N → option (list (list N)))
    (before s : list N) : option (list (list N)) :=
  match s with
  | x :: s' =>
      if accept x
      then match greedy accept k (before ++ [x]) s' with
           | Some captures => Some captures
           | None => k before s
           end
      else k before s
  | [] => k before s
  end.

(** The backtracking matcher at one position: [before] is the input read
    so far, [s] what is left, [opened] where the group being read started;
    the result lists the captured groups in order. *)
Fixpoint run (nodes : list Node) (opened : nat) (captures : list (list N))
    (before s : list N) : option (list (list N)) :=
  match nodes with
  | [] => Some captures
  | Start :: nodes' =>
      match before with
      | [] => run nodes' opened captures before s
      | _ :: _ => None
      end
  | Lit c :: nodes' =>
      match s with
      | x :: s' =>
          if decide (x = c) then run nodes' opened captures (before ++ [x]) s'
          else None
      | [] => None
      end
  | Star accept :: nodes' => greedy accept (run nodes' opened captures) before s
  | Plus accept :: nodes' =>
      match s with
      | x :: s' =>
          if accept x
          then greedy accept (run nodes' opened captures) (before ++ [x]) s'
          else None
      | [] => None
      end
  | Open :: nodes' => run nodes' (length before) captures before s
  | Close :: nodes' =>
      run nodes' opened (captures ++ [drop opened before]) before s
  end.

(** [s.match(re)] for a pattern without the [g] flag: the first position,
    from the left, at which the pattern matches. *)
Fixpoint match_from (nodes : list Node) (before s : list N)
    : option (list (list N)) :=
  match run nodes 0 [] before s with
  | Some captures => Some captures
  | None =>
      match s with
      | x :: s' => match_from nodes (before ++ [x]) s'
      | [] => None
      end
  end.

Definition String_match (s : list N) (nodes : list Node) : option (list (list N)) :=
  match_from nodes [] s.

(** ** The URI parser (lines 36-45) *)

(** The pattern of line 37. *)
Definition chatProtocolPattern : list Node :=
  [ Start; Open ] ++ (Lit <$> js "chat+")
  ++ [ Plus notColon; Close ]
  ++ (Lit <$> js ":///")
  ++ [ Open; Star notLineTerminator; Close ].

Definition parseChatProtocolUrl (url : list N) : option (list N * list N) :=
  match String_match url chatProtocolPattern with
  | Some [ protocol; pathname ] => Some (protocol, pathname)
  | _ => None
  end.

(** Two list functions in which the proofs state what the pattern does:
    [s] without its prefix [p], and the longest prefix of [s] whose code
    units satisfy [f] together with what follows it. *)
Fixpoint strip_prefix (p s : list N) : option (list N) :=
  match p, s with
  | [], _ => Some s
  | a :: p', b :: s' => if decide (b = a) then strip_prefix p' s' else None
  | _ :: _, [] => None
  end.

Fixpoint span (f : N → bool) (s : list N) : list N * list N :=
  match s with
  | [] => ([], [])
  | c :: s' =>
      if f c then let '(a, b) := span f s' in (c :: a, b) else ([], s)
  end.

(** ** Values of type [any] *)

#[local] Set Warnings "-register-all".

(** JSON data and [undefined].  An object is the list of its own
    properties in insertion order, no key occurring twice; a number is an
    IEEE double. *)
Inductive Value :=
  | VUndefined
  | VNull
  | VBool (b : bool)
  | VNum (x : float)
  | VStr (s : list N)
  | VArr (elements : list Value)
  | VObj (properties : list (list N * Value)).

(** What a computation ends with when it does not return. *)
Inductive Exn :=
  | Error (message : list N)   (* [new Error(message)] *)
  | TypeError                  (* raised by the language itself *)
  | ZodError                   (* raised by [schema.parse] *)
  | Thrown (v : Value).        (* anything else the application throws *)

(** The own property [key] of an object literal. *)
Fixpoint own (key : list N) (properties : list (list N * Value)) : option Value :=
  match properties with
  | [] => None
  | (k, v) :: rest => if decide (k = key) then Some v else own key rest
  end.

(** [v.key] and [const { key } = v]: reading a property of [undefined] or
    [null] is a TypeError; a property that is not there reads [undefined].
    The keys read by this class ([params], [name], [arguments], [uri],
    [tools], [resources], [resourceTemplates]) are on no built-in prototype,
    so on strings, arrays and the other primitives they read [undefined]. *)
Definition get (v : Value) (key : list N) : Exn + Value :=
  match v with
  | VUndefined | VNull => inl TypeError
  | VObj properties => inr (default VUndefined (own key properties))
  | _ => inr VUndefined
  end.

Definition isHighSurrogate (c : N) : bool := bool_decide (55296 ≤ c ≤ 56319)%N.
Definition isLowSurrogate (c : N) : bool := bool_decide (56320 ≤ c ≤ 57343)%N.

(** The string iterator: one element per code point, a surrogate pair
    staying together. *)
Fixpoint codePoints (s : list N) : list (list N) :=
  match s with
  | [] => []
  | a :: s' =>
      match s' with
      | b :: s'' =>
          if isHighSurrogate a && isLowSurrogate b
          then [a; b] :: codePoints s''
          else [a] :: codePoints s'
      | [] => [[a]]
      end
  end.

(** [[...v]] inside an array literal: arrays and strings are iterable, the
    other values of [Value] are not. *)
Definition spread (v : Value) : Exn + list Value :=
  match v with
  | VArr elements => inr elements
  | VStr s => inr (VStr <$> codePoints s)
  | _ => inl TypeError
  end.

(** [protocols.includes(name)]: SameValueZero against an array of strings. *)
Definition includes (protocols : list (list N)) (name : Value) : bool :=
  match name with
  | VStr s => bool_decide (s ∈ protocols)
  | _ => false
  end.

(** [Array.from(new Set(xs))]: first occurrences, in insertion order. *)
Definition Set_add (s : list (list N)) (x : list N) : list (list N) :=
  if decide (x ∈ s) then s else s ++ [x].

Definition Array_from_Set (xs : list (list N)) : list (list N) :=
  foldl Set_add [] xs.

(** [xs.map(f)] for a callback that may throw: the first throw ends it. *)
Fixpoint Array_map {A B} (f : A → Exn + B) (xs : list A) : Exn + list B :=
  match xs with
  | [] => inr []
  | x :: rest =>
      match f x with
      | inl e => inl e
      | inr y =>
          match Array_map f rest with
          | inl e => inl e
          | inr ys => inr (y :: ys)
          end
      end
  end.

(** [messages.find((m) => pred m)]. *)
Fixpoint Array_find {A} (pred : A → bool) (xs : list A) : option A :=
  match xs with
  | [] => None
  | x :: rest => if pred x then Some x else Array_find pred rest
  end.

(** ** The data model *)

(** [Resource] and [ResourceTemplate] of the MCP SDK, with the fields the
    class and its documentation use; [description] is optional there. *)
Record Resource := {
  Resource_uri : list N;
  Resource_name : list N;
  Resource_description : option (list N);
}.

Record ResourceTemplate := {
  Template_uriTemplate : list N;
  Template_name : list N;
  Template_description : option (list N);
}.

Record Author := {
  Author_name : list N;
  Author_id : list N;
}.

Record ChatNotificationMessage := {
  Message_id : list N;
  Message_uri : list N;
  Message_author : Author;
  Message_content : list N;
  Message_timestamp : list N;
}.

(** A message as the object it is, where it is handed on as [any]. *)
Definition Message_toValue (m : ChatNotificationMessage) : Value :=
  VObj [ (js "id", VStr (Message_id m));
         (js "uri", VStr (Message_uri m));
         (js "author",
           VObj [ (js "name", VStr (Author_name (Message_author m)));
                  (js "id", VStr (Author_id (Message_author m))) ]);
         (js "content", VStr (Message_content m));
         (js "timestamp", VStr (Message_timestamp m)) ].

(** A value inside a template literal; [undefined] prints as its name. *)
Definition interpolate (s : option (list N)) : list N :=
  default (js "undefined") s.

(** [SendChatMessageSchema.parse(args)]: a zod object of two strings.  It
    accepts a plain object whose [uri] and [message] are strings, drops the
    other keys, and throws on everything else. *)
Definition SendChatMessageSchema_parse (args : Value) : Exn + (list N * list N) :=
  match args with
  | VObj properties =>
      match own (js "uri") properties, own (js "message") properties with
      | Some (VStr uri), Some (VStr message) => inr (uri, message)
      | _, _ => inl ZodError
      end
  | _ => inl ZodError
  end.

(** ** Effects *)

(** How an awaited call ends: it returns, it throws, or its promise never
    settles. *)
Inductive Result (A : Type) :=
  | Ok (a : A)
  | Throw (e : Exn)
  | Pending.
Arguments Ok {A} a.
Arguments Throw {A} e.
Arguments Pending {A}.

(** The calls that leave the class, in the order they are made. *)
Inductive Event :=
  | EGetResources
  | EReadMessages (uri : Value)
  | EWriteMessage (uri message : list N)
  | ESendResourceUpdated (params : Value)
  | ENotification (msg : Value)
  | EConsoleWarn (args : list Value)
  | EConsoleError (message : list N) (error : Exn).

(** The request kinds for which [attach] installs a handler. *)
Inductive Kind :=
  | ListTools
  | CallTool
  | ReadResource
  | ListResources
  | ListResourceTemplates.

Definition Resource_toValue (r : Resource) : Value :=
  VObj ([ (js "uri", VStr (Resource_uri r));
          (js "name", VStr (Resource_name r)) ]
        ++ from_option (λ d, [ (js "description", VStr d) ]) [] (Resource_description r)).

Definition Template_toValue (t : ResourceTemplate) : Value :=
  VObj ([ (js "uriTemplate", VStr (Template_uriTemplate t));
          (js "name", VStr (Template_name t)) ]
        ++ from_option (λ d, [ (js "description", VStr d) ]) [] (Template_description t)).

(** The tool descriptor pushed by the loop of lines 89-108. *)
Definition tool (t : ResourceTemplate) (protocol : list N) : Value :=
  VObj [ (js "name", VStr protocol);
         (js "description",
           VStr (js "Send a message on the " ++ Template_name t
                 ++ js " protocol using the resource URI"));
         (js "inputSchema",
           VObj [ (js "type", VStr (js "object"));
                  (js "properties",
                    VObj [ (js "uri",
                             VObj [ (js "type", VStr (js "string"));
                                    (js "description",
                                      VStr (js "Resource URI in the format "
                                            ++ Template_uriTemplate t ++ js " -- "
                                            ++ interpolate (Template_description t))) ]);
                           (js "message",
                             VObj [ (js "type", VStr (js "string"));
                                    (js "description", VStr (js "Message content to send")) ]) ]);
                  (js "required", VArr [ VStr (js "uri"); VStr (js "message") ]) ]) ].

(** The content item of lines 125-132; [text] is whatever [writeMessage]
    resolved to, [undefined] included. *)
Definition textContent (summaryText : option (list N)) : Value :=
  VObj [ (js "content",
           VArr [ VObj [ (js "type", VStr (js "text"));
                         (js "text", from_option VStr VUndefined summaryText) ] ]) ].

(** The envelope of lines 290-295. *)
Definition contentUpdated (message : Value) : Value :=
  VObj [ (js "method", VStr (js "notifications/resources/content_updated"));
         (js "params", VObj [ (js "content", message) ]) ].

(** ** The class [MCPMessageBus] *)

Section MCPMessageBus.

(** The state of the embedding application, and a function it supplies:
    awaiting a call changes that state and ends in a [Result]. *)
Context {Ext : Type}.

Definition App (A : Type) : Type := Ext → Result A * Ext.

(** The zod request schemas of the MCP SDK and their rendering by
    zod-to-ts; nothing is assumed of either, collisions included. *)
Context {Schema : Type}.
Variable printZodSchema : Schema → list N.
Variables ListToolsRequestSchema CallToolRequestSchema
  ReadResourceRequestSchema ListResourcesRequestSchema
  ListResourceTemplatesRequestSchema : Schema.

(** [JSON.stringify(value, replacer, space)]. *)
Variable JSON_stringify : Value → Value → Value → Value.

(** The host's [sendResourceUpdated] and [notification]. *)
Variable Server_sendResourceUpdated : Value → App unit.
Variable Server_notification : Value → App unit.

(** A handler function [(request, extra) => any]: one written by the
    embedding application, or one of the five closures of [attach].  The
    functions of the application, the accessors included, act on the
    application's state only: they do not call back into the bus or the
    host while they run. *)
Inductive Fn :=
  | AppFn (handler : Value → Value → App Value)
  | BusFn (kind : Kind).

Record MCPMessageBus := {
  getResources : App (option (list Resource));
  readMessages : Value → App (option (list ChatNotificationMessage));
  writeMessage : list N → list N → App (option (list N));
  resourceTemplate : ResourceTemplate;
  requestHandlers : gmap (list N) Fn;
  server : bool;   (* [null], or the host it was attached to *)
}.

(** The host: whether its [setRequestHandler] is still the SDK's, and
    what the SDK's has been given, most recent first. *)
Record Server := {
  setRequestHandler_overridden : bool;
  Server_registered : list (Schema * Fn);
}.

Record World := {
  bus : MCPMessageBus;
  host : Server;
  ext : Ext;
  log : list Event;
}.

Definition with_requestHandlers (f : gmap (list N) Fn → gmap (list N) Fn)
    (w : World) : World :=
  {| bus := {| getResources := getResources (bus w);
               readMessages := readMessages (bus w);
               writeMessage := writeMessage (bus w);
               resourceTemplate := resourceTemplate (bus w);
               requestHandlers := f (requestHandlers (bus w));
               server := server (bus w) |};
     host := host w; ext := ext w; log := log w |}.

Definition with_server (b : bool) (w : World) : World :=
  {| bus := {| getResources := getResources (bus w);
               readMessages := readMessages (bus w);
               writeMessage := writeMessage (bus w);
               resourceTemplate := resourceTemplate (bus w);
               requestHandlers := requestHandlers (bus w);
               server := b |};
     host := host w; ext := ext w; log := log w |}.

Definition with_host (h : Server) (w : World) : World :=
  {| bus := bus w; host := h; ext := ext w; log := log w |}.

Definition with_ext (x : Ext) (w : World) : World :=
  {| bus := bus w; host := host w; ext := x; log := log w |}.

Definition with_log (l : list Event) (w : World) : World :=
  {| bus := bus w; host := host w; ext := ext w; log := l |}.

(** *** The monad of the class's code *)

Definition M (A : Type) : Type := World → Result A * World.

Definition ret {A} (a : A) : M A := λ w, (Ok a, w).

Definition bind {A B} (m : M A) (k : A → M B) : M B := λ w,
  match m w with
  | (Ok a, w') => k a w'
  | (Throw e, w') => (Throw e, w')
  | (Pending, w') => (Pending, w')
  end.

Definition throw {A} (e : Exn) : M A := λ w, (Throw e, w).

Definition pending {A} : M A := λ w, (Pending, w).

Definition lift {A} (r : Exn + A) : M A :=
  match r with inl e => throw e | inr a => ret a end.

Definition this : M MCPMessageBus := λ w, (Ok (bus w), w).

Definition emit (e : Event) : M unit := λ w, (Ok tt, with_log (log w ++ [e]) w).

(** [await f(...)] for a function of the application or of the host. *)
Definition await {A} (f : App A) : M A := λ w,
  let '(r, x) := f (ext w) in (r, with_ext x w).

(** [try { m } catch (error) { handler error }]. *)
Definition try_catch {A} (m : M A) (handler : Exn → M A) : M A := λ w,
  match m w with
  | (Throw e, w') => handler e w'
  | other => other
  end.

(** A promise nobody awaits: the work is done, its outcome is dropped. *)
Definition floating {A} (m : M A) : M unit := λ w, (Ok tt, snd (m w)).

#[local] Instance M_ret : MRet M := @ret.
#[local] Instance M_bind : MBind M := λ A B k m, bind m k.

(** *** Calls into the accessors and the host, logged *)

Definition call_getResources : M (option (list Resource)) :=
  self ← this; emit EGetResources;; await (getResources self).

Definition call_readMessages (uri : Value)
    : M (option (list ChatNotificationMessage)) :=
  self ← this; emit (EReadMessages uri);; await (readMessages self uri).

Definition call_writeMessage (uri message : list N) : M (option (list N)) :=
  self ← this; emit (EWriteMessage uri message);;
  await (writeMessage self uri message).

(** [this.server!.method]: the [!] checks nothing at run time, and a
    method of [null] is a TypeError. *)
Definition this_server : M unit :=
  self ← this; if server self then ret tt else throw TypeError.

(** [await this.server!.sendResourceUpdated(params)] (line 273). *)
Definition call_sendResourceUpdated (params : Value) : M unit :=
  this_server;; emit (ESendResourceUpdated params);;
  await (Server_sendResourceUpdated params).

(** [this.server!.notification(msg)] (line 297): the call is made, its
    promise is left alone. *)
Definition call_notification (msg : Value) : M unit :=
  this_server;; emit (ENotification msg);;
  floating (await (Server_notification msg)).

Definition console_warn (args : list Value) : M unit := emit (EConsoleWarn args).

Definition console_error (message : list N) (error : Exn) : M unit :=
  emit (EConsoleError message error).

(** [this.requestHandlers.get(key)]. *)
Definition requestHandlers_get (key : list N) : M (option Fn) :=
  self ← this; ret (requestHandlers self !! key).

(** *** Protocol discovery (lines 239-252) *)

Definition protocolOf (resource : Resource) : Exn + list N :=
  match parseChatProtocolUrl (Resource_uri resource) with
  | Some (protocol, _) => inr protocol
  | None =>
      inl (Error (js "Failed to parse resource URI: " ++ Resource_uri resource))
  end.

Definition getProtocols : M (list (list N)) :=
  resources ← call_getResources;
  let resources := default [] resources in
  allProtocols ← lift (Array_map protocolOf resources);
  ret (Array_from_Set allProtocols).

(** *** The handlers installed by [attach]

    Each takes [call], the way a handler found in the registry is
    invoked with [(request, extra)] and awaited. *)

Section Handlers.
Variable call : Fn → Value → Value → M Value.

(** Lines 79-112. *)
Definition listToolsHandler (request extra : Value) : M Value :=
  requestHandler ← requestHandlers_get (printZodSchema ListToolsRequestSchema);
  originalToolsResponse ←
    match requestHandler with
    | Some f => call f request extra
    | None => ret (VObj [ (js "tools", VArr []) ])
    end;
  protocols ← getProtocols;
  self ← this;
  let tools := tool (resourceTemplate self) <$> protocols in
  originalTools ← lift (get originalToolsResponse (js "tools"));
  originalTools ← lift (spread originalTools);
  ret (VObj [ (js "tools", VArr (originalTools ++ tools)) ]).

(** Lines 116-145. *)
Definition callToolHandler (request extra : Value) : M Value :=
  params ← lift (get request (js "params"));
  name ← lift (get params (js "name"));
  args ← lift (get params (js "arguments"));
  protocols ← getProtocols;
  if includes protocols name then
    '(uri, message) ← lift (SendChatMessageSchema_parse args);
    summaryText ← call_writeMessage uri message;
    ret (textContent summaryText)
  else
    requestHandler ← requestHandlers_get (printZodSchema CallToolRequestSchema);
    match requestHandler with
    | Some f => call f request extra
    | None => ret (VObj [ (js "content", VArr []) ])
    end.

(** Lines 149-182.  An array is truthy, empty or not. *)
Definition readResourceHandler (request extra : Value) : M Value :=
  params ← lift (get request (js "params"));
  uri ← lift (get params (js "uri"));
  messages ← call_readMessages uri;
  match messages with
  | Some messages =>
      ret (VObj [ (js "contents",
             VArr [ VObj [ (js "uri", uri);
                           (js "mimeType", VStr (js "application/json"));
                           (js "text",
                             JSON_stringify
                               (VObj [ (js "uri", uri);
                                       (js "messages",
                                         VArr (Message_toValue <$> messages)) ])
                               VNull (VNum 2)) ] ]) ])
  | None =>
      requestHandler ←
        requestHandlers_get (printZodSchema ReadResourceRequestSchema);
      match requestHandler with
      | Some f => call f request extra
      | None => ret (VObj [ (js "contents", VArr []) ])
      end
  end.

(** Lines 186-202. *)
Definition listResourcesHandler (request extra : Value) : M Value :=
  localResources ← call_getResources;
  let localResources := default [] localResources in
  requestHandler ←
    requestHandlers_get (printZodSchema ListResourcesRequestSchema);
  otherResources ←
    match requestHandler with
    | Some f => call f request extra
    | None => ret (VObj [ (js "resources", VArr []) ])
    end;
  others ← lift (get otherResources (js "resources"));
  others ← lift (spread others);
  ret (VObj [ (js "resources",
               VArr ((Resource_toValue <$> localResources) ++ others)) ]).

(** Lines 206-225. *)
Definition listResourceTemplatesHandler (request extra : Value) : M Value :=
  self ← this;
  let localResourceTemplates := [ Template_toValue (resourceTemplate self) ] in
  requestHandler ←
    requestHandlers_get (printZodSchema ListResourceTemplatesRequestSchema);
  otherResourceTemplates ←
    match requestHandler with
    | Some f => call f request extra
    | None => ret (VObj [ (js "resourceTemplates", VArr []) ])
    end;
  others ← lift (get otherResourceTemplates (js "resourceTemplates"));
  others ← lift (spread others);
  ret (VObj [ (js "resourceTemplates",
               VArr (localResourceTemplates ++ others)) ]).

End Handlers.

(** Running a handler.  A handler of [attach] that finds one of its own
    kind in the registry calls it in turn, without bound; [fuel] bounds
    that nesting, and a run that exhausts it has not settled. *)
Fixpoint handle (fuel : nat) (kind : Kind) (request extra : Value) : M Value :=
  match fuel with
  | 0 => pending
  | S fuel' =>
      let call (f : Fn) (request extra : Value) : M Value :=
        match f with
        | AppFn handler => await (handler request extra)
        | BusFn kind' => handle fuel' kind' request extra
        end in
      match kind with
      | ListTools => listToolsHandler call request extra
      | CallTool => callToolHandler call request extra
      | ReadResource => readResourceHandler call request extra
      | ListResources => listResourcesHandler call request extra
      | ListResourceTemplates => listResourceTemplatesHandler call request extra
      end
  end.

(** [requestHandler(request, extra)], awaited, with [fuel] for the
    handlers of [attach] it may reach. *)
Definition invoke (fuel : nat) (f : Fn) (request extra : Value) : M Value :=
  match f with
  | AppFn handler => await (handler request extra)
  | BusFn kind => handle fuel kind request extra
  end.

(** *** Registration and [attach] (lines 76-237) *)

(** [server.setRequestHandler(requestSchema, handler)]: the SDK's method
    records the handler with the host; the arrow function of lines
    229-234, once assigned, writes it into [this.requestHandlers]. *)
Definition Server_setRequestHandler (requestSchema : Schema) (handler : Fn)
    : M unit := λ w,
  if setRequestHandler_overridden (host w)
  then (Ok tt, with_requestHandlers
                 (λ m, <[printZodSchema requestSchema := handler]> m) w)
  else (Ok tt, with_host
                 {| setRequestHandler_overridden := false;
                    Server_registered :=
                      (requestSchema, handler) :: Server_registered (host w) |} w).

Definition override_setRequestHandler : M unit := λ w,
  (Ok tt, with_host {| setRequestHandler_overridden := true;
                       Server_registered := Server_registered (host w) |} w).

Definition set_server : M unit := λ w, (Ok tt, with_server true w).

Definition attach : M unit :=
  Server_setRequestHandler ListToolsRequestSchema (BusFn ListTools);;
  Server_setRequestHandler CallToolRequestSchema (BusFn CallTool);;
  Server_setRequestHandler ReadResourceRequestSchema (BusFn ReadResource);;
  Server_setRequestHandler ListResourcesRequestSchema (BusFn ListResources);;
  Server_setRequestHandler ListResourceTemplatesRequestSchema
    (BusFn ListResourceTemplates);;
  override_setRequestHandler;;
  set_server.

(** *** [updateResource] (lines 269-299)

    The first arrow function is built and dropped: nothing follows its
    closing parenthesis.  The second is called on the spot and not
    awaited.  Its work is run here in one piece, where the event loop would
    run it in turns between other tasks; what the caller gets does not
    depend on it. *)
Definition updateResource (uri id : list N) : M unit :=
  let _resourceUpdated : M unit :=
    try_catch
      (call_sendResourceUpdated (VObj [ (js "uri", VStr uri) ]))
      (λ error,
         console_error
           (js "Failed to send channel resource update notification for "
            ++ uri ++ js ":") error) in
  floating (
    messages ← call_readMessages (VStr uri);
    let message :=
      from_option Message_toValue VNull
        (messages ≫= Array_find (λ m, bool_decide (Message_id m = id))) in
    console_warn [ VStr (js "sending notification 1") ];;
    let msg := contentUpdated message in
    console_warn [ VStr (js "sending notification 2"); msg ];;
    call_notification msg).

(** *** Vocabulary of the statements *)

(** The world after one logged call that left the application in [x]. *)
Definition logged (e : Event) (x : Ext) (w : World) : World :=
  with_ext x (with_log (log w ++ [e]) w).

(** The calls of [writeMessage] in a log, and the resource-updated
    notifications in it. *)
Definition writes (l : list Event) : list (list N * list N) :=
  omap (λ e, match e with EWriteMessage uri message => Some (uri, message) | _ => None end) l.

Definition resourceUpdates (l : list Event) : list Value :=
  omap (λ e, match e with ESendResourceUpdated params => Some params | _ => None end) l.

Definition notifications (l : list Event) : list Value :=
  omap (λ e, match e with ENotification msg => Some msg | _ => None end) l.

(** The protocol of a resource whose URI parses. *)
Definition protocol (r : Resource) : option (list N) :=
  fst <$> parseChatProtocolUrl (Resource_uri r).

(** What the embedding application may do with an attached bus, one call
    after the other: register a handler with the host, have the host
    serve a request of one of the five kinds, report a new message. *)
Inductive Op :=
  | Register (requestSchema : Schema) (handler : Fn)
  | Request (fuel : nat) (kind : Kind) (request extra : Value)
  | NewMessage (uri id : list N).

Definition step (op : Op) (w : World) : World :=
  match op with
  | Register requestSchema handler =>
      snd (Server_setRequestHandler requestSchema handler w)
  | Request fuel kind request extra => snd (handle fuel kind request extra w)
  | NewMessage uri id => snd (updateResource uri id w)
  end.

Definition steps (ops : list Op) (w : World) : World := foldl (λ w op, step op w) w ops.

(** The handler last registered under [key] by [ops], if any. *)
Definition lastRegistered (key : list N) (ops : list Op) : option Fn :=
  foldl (λ acc op,
           match op with
           | Register requestSchema handler =>
               if decide (printZodSchema requestSchema = key) then Some handler else acc
           | _ => acc
           end) None ops.

(** [v.k1.k2...]. *)
Fixpoint get_path (v : Value) (keys : list (list N)) : Exn + Value :=
  match keys with
  | [] => inr v
  | key :: keys' =>
      match get v key with
      | inr v' => get_path v' keys'
      | inl e => inl e
      end
  end.

(** A computation that leaves the bus and the host as they were. *)
Definition preserves {A} (m : M A) : Prop :=
  ∀ w, bus (snd (m w)) = bus w ∧ host (snd (m w)) = host w.

(** * Properties *)

(** ** The URI parser *)

Example parse_discord :
  parseChatProtocolUrl (js "chat+discord:///1234567890/1234567890")
  = Some (js "chat+discord", js "1234567890/1234567890").
Proof. reflexivity. Qed.

Example parse_bad : parseChatProtocolUrl (js "bad") = None.
Proof. reflexivity. Qed.

Example parse_no_name : parseChatProtocolUrl (js "chat+:///x") = None.
Proof. reflexivity. Qed.

Example parse_not_at_start : parseChatProtocolUrl (js "xchat+a:///x") = None.
Proof. reflexivity. Qed.

Example parse_newline :
  parseChatProtocolUrl (js "chat+a:///x" ++ [10%N] ++ js "y")
  = Some (js "chat+a", js "x").
Proof. reflexivity. Qed.

(** The anchor fails everywhere but at the start of the input. *)
Lemma match_from_Start nodes before s :
  before ≠ [] → match_from (Start :: nodes) before s = None.
Proof.
  revert before. induction s as [|x s IH]; intros before Hne.
  - destruct before; [done|reflexivity].
  - cbn. destruct before as [|b before]; [done|].
    apply IH. by destruct before.
Qed.

Lemma String_match_Start nodes s :
  String_match s (Start :: nodes) = run nodes 0 [] [] s.
Proof.
  unfold String_match. destruct s as [|x s]; cbn.
  - by destruct (run nodes 0 [] [] []).
  - destruct (run nodes 0 [] [] (x :: s)); [done|].
    by apply match_from_Start.
Qed.

Lemma run_Lits l nodes opened captures before s :
  run ((Lit <$> l) ++ nodes) opened captures before s
  = match strip_prefix l s with
    | Some rest => run nodes opened captures (before ++ l) rest
    | None => None
    end.
Proof.
  revert before s. induction l as [|a l IH]; intros before s.
  - cbn. by rewrite app_nil_r.
  - destruct s as [|x s]; [done|]. cbn.
    destruct (decide (x = a)) as [->|]; [|done].
    rewrite IH. by rewrite <- app_assoc.
Qed.

(** A continuation that refuses every code unit of the class takes
    nothing back from the loop. *)
Lemma greedy_no_backtrack accept k before s :
  (∀ b x s', accept x = true → k b (x :: s') = None) →
  greedy accept k before s
  = k (before ++ fst (span accept s)) (snd (span accept s)).
Proof.
  intros Hk. revert before. induction s as [|x s IH]; intros before.
  - cbn. by rewrite app_nil_r.
  - cbn. destruct (accept x) eqn:Hx.
    + rewrite IH. destruct (span accept s) as [a b] eqn:Hs. cbn.
      rewrite <- app_assoc. cbn.
      destruct (k (before ++ x :: a) b) eqn:Hkb; [done|].
      by apply Hk.
    + cbn. by rewrite app_nil_r.
Qed.

(** A continuation that always succeeds gets the longest run. *)
Lemma greedy_longest accept k before s :
  (∀ b r, is_Some (k b r)) →
  greedy accept k before s
  = k (before ++ fst (span accept s)) (snd (span accept s)).
Proof.
  intros Hk. revert before. induction s as [|x s IH]; intros before.
  - cbn. by rewrite app_nil_r.
  - cbn. destruct (accept x) eqn:Hx.
    + rewrite IH. destruct (span accept s) as [a b] eqn:Hs. cbn.
      rewrite <- app_assoc. cbn.
      by destruct (Hk (before ++ x :: a) b) as [c ->].
    + cbn. by rewrite app_nil_r.
Qed.

(** What the match of line 37 amounts to. *)
Lemma parseChatProtocolUrl_closed url :
  parseChatProtocolUrl url
  = match strip_prefix (js "chat+") url with
    | None => None
    | Some rest =>
        match fst (span notColon rest), strip_prefix (js ":///") (snd (span notColon rest)) with
        | _ :: _, Some tail =>
            Some (js "chat+" ++ fst (span notColon rest),
                  fst (span notLineTerminator tail))
        | _, _ => None
        end
    end.
Proof.
  unfold parseChatProtocolUrl, chatProtocolPattern.
  change ([Start; Open] ++ ?x) with (Start :: Open :: x).
  rewrite String_match_Start.
  change (run (Open :: ?x) 0 [] [] url) with (run x 0 [] [] url).
  rewrite run_Lits.
  destruct (strip_prefix (js "chat+") url) as [rest|]; [|done].
  change ([Plus notColon; Close] ++ ?x) with (Plus notColon :: Close :: x).
  destruct rest as [|x rest]; [done|].
  cbn [run span]. destruct (notColon x) eqn:Hx; [|done].
  rewrite greedy_no_backtrack.
  2:{ intros b y s' Hy. cbn [run]. rewrite run_Lits.
      change (js ":///") with (colon :: js "///"). cbn [strip_prefix].
      destruct (decide (y = colon)) as [->|]; [by vm_compute in Hy|done]. }
  destruct (span notColon rest) as [name after]. cbn [fst snd].
  change (run (Close :: ?n) 0 [] ?b ?r) with (run n 0 ([] ++ [drop 0 b]) b r).
  rewrite run_Lits.
  destruct (strip_prefix (js ":///") after) as [tail|]; [|done].
  change ([Open; Star notLineTerminator; Close])
    with (Open :: Star notLineTerminator :: [Close]).
  cbn [run].
  rewrite greedy_longest by (intros; cbn; eauto).
  cbn [run app]. rewrite drop_app_length. rewrite drop_0.
  by rewrite <- !app_assoc.
Qed.

Lemma strip_prefix_app p s : strip_prefix p (p ++ s) = Some s.
Proof.
  induction p as [|a p IH]; [done|]. cbn.
  by destruct (decide (a = a)).
Qed.

Lemma strip_prefix_Some p s r : strip_prefix p s = Some r → s = p ++ r.
Proof.
  revert s. induction p as [|a p IH]; intros s H.
  - cbn in H. by inversion H.
  - destruct s as [|b s]; [done|]. cbn in H.
    destruct (decide (b = a)) as [->|]; [|done].
    cbn. f_equal. by apply IH.
Qed.

Lemma span_app_stop f a b :
  Forall (λ c, f c = true) a →
  match b with [] => True | c :: _ => f c = false end →
  span f (a ++ b) = (a, b).
Proof.
  intros Ha Hb. induction Ha as [|x a Hx Ha IH].
  - destruct b as [|c b]; [done|]. cbn. by rewrite Hb.
  - cbn. by rewrite Hx, IH.
Qed.

Lemma span_all f s : Forall (λ c, f c = true) s → span f s = (s, []).
Proof.
  intros H. rewrite <- (app_nil_r s) at 1. by apply span_app_stop.
Qed.

Lemma span_spec f s :
  s = fst (span f s) ++ snd (span f s)
  ∧ Forall (λ c, f c = true) (fst (span f s)).
Proof.
  induction s as [|x s [IH1 IH2]]; [by split; [|constructor]|].
  cbn. destruct (f x) eqn:Hx; [|by split; [|constructor]].
  destruct (span f s) as [a b]. cbn in *. split; [by f_equal|].
  by constructor.
Qed.

Lemma notColon_Forall p : colon ∉ p → Forall (λ c, notColon c = true) p.
Proof.
  intros H. apply Forall_forall. intros c Hc. unfold notColon.
  rewrite bool_decide_eq_false_2; [done|]. by intros ->.
Qed.

Lemma Forall_notColon p : Forall (λ c, notColon c = true) p → colon ∉ p.
Proof.
  intros H Hin. rewrite Forall_forall in H. by specialize (H _ Hin).
Qed.

(** C7, as amended.  The parser is a function of its argument alone and is
    defined on every string.  On a string made of [chat+], a non-empty
    run [p] without a colon, a colon, three slashes and a rest, it returns
    the protocol [chat+p] and, as pathname, the rest up to its first line
    terminator (LF, CR, U+2028, U+2029): the whole rest when it has none.
    On every other string it returns [null]. *)
Theorem parseChatProtocolUrl_spec :
  (∀ p rest, p ≠ [] → colon ∉ p →
     parseChatProtocolUrl (js "chat+" ++ p ++ js ":///" ++ rest)
     = Some (js "chat+" ++ p, fst (span notLineTerminator rest)))
  ∧ (∀ p rest, p ≠ [] → colon ∉ p →
     Forall (λ c, isLineTerminator c = false) rest →
     parseChatProtocolUrl (js "chat+" ++ p ++ js ":///" ++ rest)
     = Some (js "chat+" ++ p, rest))
  ∧ (∀ url,
     (∀ p rest, p ≠ [] → colon ∉ p →
        url ≠ js "chat+" ++ p ++ js ":///" ++ rest) →
     parseChatProtocolUrl url = None).
Proof.
  assert (Hmatch : ∀ p rest, p ≠ [] → colon ∉ p →
     parseChatProtocolUrl (js "chat+" ++ p ++ js ":///" ++ rest)
     = Some (js "chat+" ++ p, fst (span notLineTerminator rest))).
  { intros p rest Hp Hc. rewrite parseChatProtocolUrl_closed.
    rewrite strip_prefix_app.
    rewrite (span_app_stop notColon p (js ":///" ++ rest));
      [|by apply notColon_Forall|done].
    cbn [fst snd]. rewrite strip_prefix_app. by destruct p. }
  split; [exact Hmatch|]. split.
  - intros p rest Hp Hc Hrest. rewrite Hmatch by done.
    rewrite span_all; [done|].
    eapply Forall_impl; [exact Hrest|]. intros c Hx.
    unfold notLineTerminator. by rewrite Hx.
  - intros url Hno. rewrite parseChatProtocolUrl_closed.
    destruct (strip_prefix (js "chat+") url) as [rest0|] eqn:H0; [|done].
    apply strip_prefix_Some in H0.
    destruct (span_spec notColon rest0) as [Hsplit Hall].
    destruct (fst (span notColon rest0)) as [|x name] eqn:Hname; [done|].
    destruct (strip_prefix (js ":///") (snd (span notColon rest0)))
      as [tail|] eqn:H1; [|done].
    apply strip_prefix_Some in H1. exfalso.
    apply (Hno (x :: name) tail); [done|by apply Forall_notColon|].
    rewrite H0, Hsplit at 1. by rewrite H1.
Qed.

(** C7, as stated, is false: the pathname is not everything after the
    triple slash when that contains a line terminator. *)
Lemma parseChatProtocolUrl_pathname_stops_at_newline :
  ¬ (∀ p rest, p ≠ [] → colon ∉ p →
       parseChatProtocolUrl (js "chat+" ++ p ++ js ":///" ++ rest)
       = Some (js "chat+" ++ p, rest)).
Proof.
  intros H.
  specialize (H (js "a") (js "x" ++ [10%N] ++ js "y")).
  assert (Hp : js "a" ≠ []) by done.
  assert (Hc : colon ∉ js "a").
  { intros Hin. vm_compute in Hin. by apply list_elem_of_singleton in Hin. }
  specialize (H Hp Hc). vm_compute in H. discriminate H.
Qed.


(** ** Protocol discovery *)

Lemma Set_add_spec s x :
  NoDup s → NoDup (Set_add s x) ∧ ∀ y, y ∈ Set_add s x ↔ y ∈ s ∨ y = x.
Proof.
  intros Hs. unfold Set_add. destruct (decide (x ∈ s)) as [Hin|Hout].
  - split; [done|]. intros y. split; [by left|]. by intros [?| ->].
  - split.
    + apply NoDup_app. split; [done|]. split; [|apply NoDup_singleton].
      intros y Hy ->%list_elem_of_singleton. done.
    + intros y. rewrite elem_of_app, list_elem_of_singleton. done.
Qed.

Lemma foldl_Set_add_spec xs s :
  NoDup s →
  NoDup (foldl Set_add s xs) ∧ ∀ y, y ∈ foldl Set_add s xs ↔ y ∈ s ∨ y ∈ xs.
Proof.
  revert s. induction xs as [|x xs IH]; intros s Hs; cbn.
  - split; [done|]. intros y. rewrite elem_of_nil.
    split; [by left|]. by intros [?|[]].
  - destruct (Set_add_spec s x Hs) as [Hnd Hin].
    destruct (IH _ Hnd) as [Hnd' Hin']. split; [done|].
    intros y. rewrite Hin', Hin, elem_of_cons.
    split; [intros [[?|?]|?]|intros [?|[?|?]]]; auto.
Qed.

Lemma Array_from_Set_NoDup xs : NoDup (Array_from_Set xs).
Proof. apply foldl_Set_add_spec. constructor. Qed.

Lemma Array_from_Set_elem_of xs y : y ∈ Array_from_Set xs ↔ y ∈ xs.
Proof.
  unfold Array_from_Set.
  destruct (foldl_Set_add_spec xs [] (NoDup_nil_2 (A:=list N))) as [_ H].
  rewrite H, elem_of_nil. split; [by intros [[]|?]|by right].
Qed.

Lemma Array_from_Set_Permutation xs ys :
  xs ≡ₚ ys → Array_from_Set xs ≡ₚ Array_from_Set ys.
Proof.
  intros Hp. apply NoDup_Permutation; [apply Array_from_Set_NoDup..|].
  intros y. rewrite !Array_from_Set_elem_of. by rewrite Hp.
Qed.

(** The callback of line 241 on a list whose URIs all parse. *)
Lemma Array_map_protocolOf_ok rs :
  Forall (λ r, is_Some (protocol r)) rs →
  Array_map protocolOf rs = inr (omap protocol rs).
Proof.
  induction 1 as [|r rs [p Hp] _ IH]; [done|]. cbn.
  unfold protocolOf, protocol in *.
  destruct (parseChatProtocolUrl (Resource_uri r)) as [[q path]|]; [|done].
  cbn in *. by rewrite IH.
Qed.

(** The callback of line 241 throws at the first URI that does not parse. *)
Lemma Array_map_protocolOf_throw before r after :
  Forall (λ r, is_Some (protocol r)) before →
  protocol r = None →
  Array_map protocolOf (before ++ r :: after)
  = inl (Error (js "Failed to parse resource URI: " ++ Resource_uri r)).
Proof.
  intros Hb Hr. induction Hb as [|r0 before [p Hp] _ IH]; cbn.
  - unfold protocolOf, protocol in *.
    by destruct (parseChatProtocolUrl (Resource_uri r)) as [[q path]|].
  - unfold protocolOf at 1. unfold protocol in Hp.
    destruct (parseChatProtocolUrl (Resource_uri r0)) as [[q path]|]; [|done].
    by rewrite IH.
Qed.

Lemma first_unparsed rs r :
  r ∈ rs → protocol r = None →
  ∃ before r' after,
    rs = before ++ r' :: after
    ∧ Forall (λ r, is_Some (protocol r)) before ∧ protocol r' = None.
Proof.
  induction rs as [|r0 rs IH]; intros Hin Hr; [by apply elem_of_nil in Hin|].
  destruct (protocol r0) as [p|] eqn:H0.
  - apply elem_of_cons in Hin as [->|Hin]; [congruence|].
    destruct (IH Hin Hr) as (before & r' & after & -> & Hb & Hr').
    exists (r0 :: before), r', after. split; [done|]. split; [|done].
    constructor; [by eexists|done].
  - exists [], r0, rs. by repeat split.
Qed.

(** Unfolding the monad down to functions on worlds. *)
Ltac unfold_M :=
  unfold mbind, M_bind, mret, M_ret, bind, ret, throw, pending, lift, this,
    emit, await, try_catch, floating in *.

Lemma call_getResources_eq w :
  call_getResources w
  = (fst (getResources (bus w) (ext w)),
     logged EGetResources (snd (getResources (bus w) (ext w))) w).
Proof.
  unfold call_getResources, logged. unfold_M. cbn.
  by destruct (getResources (bus w) (ext w)).
Qed.

Lemma getProtocols_eq w :
  getProtocols w
  = (match fst (getResources (bus w) (ext w)) with
     | Ok resources =>
         match Array_map protocolOf (default [] resources) with
         | inr allProtocols => Ok (Array_from_Set allProtocols)
         | inl e => Throw e
         end
     | Throw e => Throw e
     | Pending => Pending
     end,
     logged EGetResources (snd (getResources (bus w) (ext w))) w).
Proof.
  unfold getProtocols. unfold mbind, M_bind, bind. rewrite call_getResources_eq.
  destruct (getResources (bus w) (ext w)) as [[resources|e|] x]; cbn; [|done..].
  unfold_M. by destruct (Array_map protocolOf (default [] resources)).
Qed.


Lemma omap_protocol_elem_of (rs : list Resource) (p : list N) :
  p ∈ omap protocol rs ↔ ∃ r, r ∈ rs ∧ protocol r = Some p.
Proof. apply list_elem_of_omap. Qed.

(** C8.  When [getResources] resolves to a list whose URIs all parse (an
    absent list counting as the empty one), discovery returns the
    protocols of the resources without duplicates: the empty list for no
    resources, and otherwise a duplicate-free list holding exactly the
    parsed protocols.  The result depends on the resource list only, and
    reordering the resources gives the same protocols, as a set. *)
Theorem getProtocols_deduplicated_image (w w' : World)
    (resources resources' : option (list Resource)) (x x' : Ext) :
  getResources (bus w) (ext w) = (Ok resources, x) →
  getResources (bus w') (ext w') = (Ok resources', x') →
  Forall (λ r, is_Some (protocol r)) (default [] resources) →
  default [] resources ≡ₚ default [] resources' →
  ∃ ps ps',
    fst (getProtocols w) = Ok ps
    ∧ fst (getProtocols w') = Ok ps'
    ∧ (default [] resources = [] → ps = [])
    ∧ ps = Array_from_Set (omap protocol (default [] resources))
    ∧ NoDup ps
    ∧ (∀ p, p ∈ ps ↔ ∃ r, r ∈ default [] resources ∧ protocol r = Some p)
    ∧ (default [] resources' = default [] resources → ps' = ps)
    ∧ (∀ p, p ∈ ps' ↔ p ∈ ps).
Proof.
  intros Hw Hw' Hall Hperm.
  assert (Hall' : Forall (λ r, is_Some (protocol r)) (default [] resources')).
  { by rewrite <- Hperm. }
  exists (Array_from_Set (omap protocol (default [] resources))),
         (Array_from_Set (omap protocol (default [] resources'))).
  rewrite !getProtocols_eq, Hw, Hw'. cbn [fst snd].
  rewrite !Array_map_protocolOf_ok by done.
  split; [done|]. split; [done|]. split; [by intros ->|]. split; [done|].
  split; [apply Array_from_Set_NoDup|]. split.
  { intros p. by rewrite Array_from_Set_elem_of, omap_protocol_elem_of. }
  split; [by intros ->|].
  intros p. rewrite !Array_from_Set_elem_of, !omap_protocol_elem_of.
  split; intros (r & Hr & Hp); exists r; (split; [|done]).
  - by rewrite Hperm.
  - by rewrite <- Hperm.
Qed.

(** C2.  When [getResources] resolves to a list holding a resource whose
    URI the parser rejects, discovery throws, whatever the other
    resources are; the error names the first such URI of the list. *)
Theorem getProtocols_fail_fast (w : World) (resources : list Resource)
    (x : Ext) (r : Resource) :
  getResources (bus w) (ext w) = (Ok (Some resources), x) →
  r ∈ resources →
  parseChatProtocolUrl (Resource_uri r) = None →
  ∃ before r' after,
    resources = before ++ r' :: after
    ∧ Forall (λ r, is_Some (parseChatProtocolUrl (Resource_uri r))) before
    ∧ parseChatProtocolUrl (Resource_uri r') = None
    ∧ fst (getProtocols w)
      = Throw (Error (js "Failed to parse resource URI: " ++ Resource_uri r')).
Proof.
  intros Hw Hin Hr.
  destruct (first_unparsed resources r Hin) as (before & r' & after & -> & Hb & Hr').
  { unfold protocol. by rewrite Hr. }
  exists before, r', after. split; [done|]. split.
  { eapply Forall_impl; [exact Hb|]. intros r0 [p Hp]. unfold protocol in Hp.
    by destruct (parseChatProtocolUrl (Resource_uri r0)). }
  split.
  { unfold protocol in Hr'.
    by destruct (parseChatProtocolUrl (Resource_uri r')). }
  rewrite getProtocols_eq, Hw. cbn [fst snd].
  change (default [] (Some (before ++ r' :: after))) with (before ++ r' :: after).
  by rewrite Array_map_protocolOf_throw.
Qed.


(** ** The handlers *)

Lemma bind_lift {A B} (r : Exn + A) (a : A) (k : A → M B) :
  r = inr a → lift r ≫= k = k a.
Proof. by intros ->. Qed.

Lemma bind_Ok {A B} (m : M A) (k : A → M B) (w w' : World) (a : A) :
  m w = (Ok a, w') → (m ≫= k) w = k a w'.
Proof. intros H. unfold_M. by rewrite H. Qed.

Lemma handle_S fuel kind request extra :
  handle (S fuel) kind request extra
  = match kind with
    | ListTools => listToolsHandler (invoke fuel) request extra
    | CallTool => callToolHandler (invoke fuel) request extra
    | ReadResource => readResourceHandler (invoke fuel) request extra
    | ListResources => listResourcesHandler (invoke fuel) request extra
    | ListResourceTemplates =>
        listResourceTemplatesHandler (invoke fuel) request extra
    end.
Proof. reflexivity. Qed.

Lemma call_writeMessage_eq uri message w :
  call_writeMessage uri message w
  = (fst (writeMessage (bus w) uri message (ext w)),
     logged (EWriteMessage uri message)
       (snd (writeMessage (bus w) uri message (ext w))) w).
Proof.
  unfold call_writeMessage, logged. unfold_M. cbn.
  by destruct (writeMessage (bus w) uri message (ext w)).
Qed.

Lemma call_readMessages_eq uri w :
  call_readMessages uri w
  = (fst (readMessages (bus w) uri (ext w)),
     logged (EReadMessages uri) (snd (readMessages (bus w) uri (ext w))) w).
Proof.
  unfold call_readMessages, logged. unfold_M. cbn.
  by destruct (readMessages (bus w) uri (ext w)).
Qed.

Lemma requestHandlers_get_eq key w :
  requestHandlers_get key w = (Ok (requestHandlers (bus w) !! key), w).
Proof. reflexivity. Qed.

(** Discovery reads the resources and touches nothing of the bus. *)
Lemma getProtocols_world w r w1 :
  getProtocols w = (r, w1) →
  w1 = logged EGetResources (snd (getResources (bus w) (ext w))) w.
Proof. rewrite getProtocols_eq. by intros [= _ <-]. Qed.

Lemma includes_true protocols p : p ∈ protocols → includes protocols (VStr p) = true.
Proof. intros H. cbn. by apply bool_decide_eq_true_2. Qed.

Lemma includes_false protocols name :
  (∀ p, name = VStr p → p ∉ protocols) → includes protocols name = false.
Proof.
  intros H. destruct name; try done. cbn. apply bool_decide_eq_false_2.
  by apply H.
Qed.

Lemma writes_app l l' : writes (l ++ l') = writes l ++ writes l'.
Proof. apply omap_app. Qed.

(** The call-tool handler on a tool that is a discovered protocol. *)
Lemma callTool_local fuel request extra params name args w w1 protocols
    p uri message :
  get request (js "params") = inr params →
  get params (js "name") = inr name →
  get params (js "arguments") = inr args →
  getProtocols w = (Ok protocols, w1) →
  name = VStr p → p ∈ protocols →
  SendChatMessageSchema_parse args = inr (uri, message) →
  handle (S fuel) CallTool request extra w
  = (match fst (writeMessage (bus w) uri message (ext w1)) with
     | Ok summaryText => Ok (textContent summaryText)
     | Throw e => Throw e
     | Pending => Pending
     end,
     logged (EWriteMessage uri message)
       (snd (writeMessage (bus w) uri message (ext w1))) w1).
Proof.
  intros Hparams Hname Hargs Hdisc -> Hin Hparse.
  rewrite handle_S. unfold callToolHandler.
  rewrite (bind_lift _ _ _ Hparams), (bind_lift _ _ _ Hname),
    (bind_lift _ _ _ Hargs).
  rewrite (bind_Ok _ _ _ _ _ Hdisc).
  rewrite includes_true by done.
  rewrite (bind_lift _ _ _ Hparse).
  pose proof (getProtocols_world _ _ _ Hdisc) as Hw1.
  assert (Hbus : bus w1 = bus w) by (by rewrite Hw1).
  unfold mbind, M_bind, bind. rewrite call_writeMessage_eq, Hbus.
  by destruct (writeMessage (bus w) uri message (ext w1)) as [[s|e|] x'].
Qed.

(** The call-tool handler on any other tool. *)
Lemma callTool_fallback fuel request extra params name args w w1 protocols :
  get request (js "params") = inr params →
  get params (js "name") = inr name →
  get params (js "arguments") = inr args →
  getProtocols w = (Ok protocols, w1) →
  (∀ p, name = VStr p → p ∉ protocols) →
  handle (S fuel) CallTool request extra w
  = match requestHandlers (bus w) !! printZodSchema CallToolRequestSchema with
    | Some f => invoke fuel f request extra w1
    | None => (Ok (VObj [ (js "content", VArr []) ]), w1)
    end.
Proof.
  intros Hparams Hname Hargs Hdisc Hnot.
  rewrite handle_S. unfold callToolHandler.
  rewrite (bind_lift _ _ _ Hparams), (bind_lift _ _ _ Hname),
    (bind_lift _ _ _ Hargs).
  rewrite (bind_Ok _ _ _ _ _ Hdisc).
  rewrite includes_false by done.
  pose proof (getProtocols_world _ _ _ Hdisc) as Hw1.
  assert (Hbus : bus w1 = bus w) by (by rewrite Hw1).
  rewrite (bind_Ok _ _ _ _ _ (requestHandlers_get_eq _ _)), Hbus.
  by destruct (requestHandlers (bus w) !! printZodSchema CallToolRequestSchema).
Qed.


(** C3.  A call-tool request whose tool name is a discovered protocol and
    whose arguments have the shape [{uri, message}] makes one call of
    [writeMessage(uri, message)] and answers with a [content] of one item,
    of type [text], whose [text] is what that call resolved to.  A request
    for any other name is answered by the handler registered for call-tool
    requests, called with the same request, and by an empty content list
    when there is none. *)
Theorem callTool_spec (fuel : nat) (request extra params name args : Value)
    (w w1 : World) (protocols : list (list N)) :
  get request (js "params") = inr params →
  get params (js "name") = inr name →
  get params (js "arguments") = inr args →
  getProtocols w = (Ok protocols, w1) →
  let result := handle (S fuel) CallTool request extra w in
  (∀ p uri message,
     name = VStr p → p ∈ protocols →
     SendChatMessageSchema_parse args = inr (uri, message) →
     result
     = (match fst (writeMessage (bus w) uri message (ext w1)) with
        | Ok summaryText =>
            Ok (VObj [ (js "content",
                         VArr [ VObj [ (js "type", VStr (js "text"));
                                       (js "text",
                                         match summaryText with
                                         | Some text => VStr text
                                         | None => VUndefined
                                         end) ] ]) ])
        | Throw e => Throw e
        | Pending => Pending
        end,
        logged (EWriteMessage uri message)
          (snd (writeMessage (bus w) uri message (ext w1))) w1)
     ∧ writes (log (snd result)) = writes (log w) ++ [ (uri, message) ])
  ∧ (∀ f,
     (∀ p, name = VStr p → p ∉ protocols) →
     requestHandlers (bus w) !! printZodSchema CallToolRequestSchema = Some f →
     result = invoke fuel f request extra w1)
  ∧ ((∀ p, name = VStr p → p ∉ protocols) →
     requestHandlers (bus w) !! printZodSchema CallToolRequestSchema = None →
     result = (Ok (VObj [ (js "content", VArr []) ]), w1)
     ∧ writes (log (snd result)) = writes (log w)).
Proof.
  intros Hparams Hname Hargs Hdisc result.
  pose proof (getProtocols_world _ _ _ Hdisc) as Hw1.
  assert (Hlog : log w1 = log w ++ [ EGetResources ]) by (by rewrite Hw1).
  split; [|split].
  - intros p uri message Hp Hin Hparse. subst result.
    rewrite (callTool_local fuel request extra params name args w w1
               protocols p uri message) by done.
    split; [reflexivity|]. cbn [snd logged with_ext with_log log].
    rewrite Hlog, !writes_app. cbn. by rewrite app_nil_r.
  - intros f Hnot Hf. subst result.
    rewrite (callTool_fallback fuel request extra params name args w w1
               protocols) by done.
    by rewrite Hf.
  - intros Hnot Hf. subst result.
    rewrite (callTool_fallback fuel request extra params name args w w1
               protocols) by done.
    rewrite Hf. split; [done|]. cbn [snd].
    rewrite Hlog, writes_app. cbn. by rewrite app_nil_r.
Qed.

(** C10.  When the tool name is a discovered protocol, the arguments have
    the shape [{uri, message}] and [writeMessage] resolves to [undefined],
    the handler answers with one content item of type [text] whose [text]
    is [undefined]; whatever is registered for call-tool requests is not
    called, and nothing is thrown. *)
Theorem callTool_absent_summary (fuel : nat)
    (request extra params name args : Value) (w w1 : World)
    (protocols : list (list N)) (p uri message : list N) (x : Ext) :
  get request (js "params") = inr params →
  get params (js "name") = inr name →
  get params (js "arguments") = inr args →
  getProtocols w = (Ok protocols, w1) →
  name = VStr p → p ∈ protocols →
  SendChatMessageSchema_parse args = inr (uri, message) →
  writeMessage (bus w) uri message (ext w1) = (Ok None, x) →
  handle (S fuel) CallTool request extra w
  = (Ok (VObj [ (js "content",
                  VArr [ VObj [ (js "type", VStr (js "text"));
                                (js "text", VUndefined) ] ]) ]),
     logged (EWriteMessage uri message) x w1).
Proof.
  intros Hparams Hname Hargs Hdisc Hp Hin Hparse Hwrite.
  rewrite (callTool_local fuel request extra params name args w w1
             protocols p uri message) by done.
  by rewrite Hwrite.
Qed.


(** *** Requests leave the bus and the host alone *)

Lemma preserves_ret {A} (a : A) : preserves (ret a).
Proof. by intros w. Qed.

Lemma preserves_throw {A} e : preserves (@throw A e).
Proof. by intros w. Qed.

Lemma preserves_pending {A} : preserves (@pending A).
Proof. by intros w. Qed.

Lemma preserves_lift {A} (r : Exn + A) : preserves (lift r).
Proof. by destruct r. Qed.

Lemma preserves_this : preserves this.
Proof. by intros w. Qed.

Lemma preserves_emit e : preserves (emit e).
Proof. by intros w. Qed.

Lemma preserves_await {A} (f : App A) : preserves (await f).
Proof. intros w. unfold await. by destruct (f (ext w)). Qed.

Lemma preserves_bind {A B} (m : M A) (k : A → M B) :
  preserves m → (∀ a, preserves (k a)) → preserves (m ≫= k).
Proof.
  intros Hm Hk w. unfold_M. specialize (Hm w).
  destruct (m w) as [[a|e|] w']; cbn in *; [|done..].
  destruct (Hk a w') as [-> ->]. done.
Qed.

Lemma preserves_floating {A} (m : M A) : preserves m → preserves (floating m).
Proof. intros Hm w. apply Hm. Qed.

Lemma preserves_try_catch {A} (m : M A) (h : Exn → M A) :
  preserves m → (∀ e, preserves (h e)) → preserves (try_catch m h).
Proof.
  intros Hm Hh w. unfold try_catch. specialize (Hm w).
  destruct (m w) as [[a|e|] w']; cbn in *; [done| |done].
  destruct (Hh e w') as [-> ->]. done.
Qed.

Ltac solve_preserves :=
  repeat match goal with
    | |- preserves (_ ≫= _) => apply preserves_bind; [|intros ?]
    | |- preserves (ret _) => apply preserves_ret
    | |- preserves (throw _) => apply preserves_throw
    | |- preserves (lift _) => apply preserves_lift
    | |- preserves this => apply preserves_this
    | |- preserves (emit _) => apply preserves_emit
    | |- preserves (await _) => apply preserves_await
    | |- preserves (floating _) => apply preserves_floating
    | |- preserves (try_catch _ _) => apply preserves_try_catch; [|intros ?]
    | |- preserves (match ?x with _ => _ end) => destruct x
    | |- preserves (if ?x then _ else _) => destruct x
    | H : ∀ f request extra, preserves (_ f request extra) |- _ => apply H
    | |- _ => assumption
    | H : ∀ x, preserves _ |- _ => apply H
    | H : ∀ x y, preserves _ |- _ => apply H
    end.

Lemma preserves_call_getResources : preserves call_getResources.
Proof. unfold call_getResources. solve_preserves. Qed.

Lemma preserves_call_readMessages uri : preserves (call_readMessages uri).
Proof. unfold call_readMessages. solve_preserves. Qed.

Lemma preserves_call_writeMessage uri message :
  preserves (call_writeMessage uri message).
Proof. unfold call_writeMessage. solve_preserves. Qed.

Lemma preserves_call_notification msg : preserves (call_notification msg).
Proof. unfold call_notification, this_server. solve_preserves. Qed.

Lemma preserves_getProtocols : preserves getProtocols.
Proof.
  unfold getProtocols. pose proof preserves_call_getResources. solve_preserves.
Qed.

Lemma preserves_handlers (call : Fn → Value → Value → M Value) kind request extra :
  (∀ f request extra, preserves (call f request extra)) →
  preserves
    match kind with
    | ListTools => listToolsHandler call request extra
    | CallTool => callToolHandler call request extra
    | ReadResource => readResourceHandler call request extra
    | ListResources => listResourcesHandler call request extra
    | ListResourceTemplates => listResourceTemplatesHandler call request extra
    end.
Proof.
  intros Hcall.
  pose proof preserves_call_getResources.
  pose proof preserves_getProtocols.
  pose proof preserves_call_readMessages.
  pose proof preserves_call_writeMessage.
  destruct kind;
    unfold listToolsHandler, callToolHandler, readResourceHandler,
      listResourcesHandler, listResourceTemplatesHandler, requestHandlers_get;
    solve_preserves.
Qed.

Lemma preserves_handle fuel kind request extra :
  preserves (handle fuel kind request extra).
Proof.
  revert kind request extra. induction fuel as [|fuel IH]; intros kind request extra.
  - apply preserves_pending.
  - rewrite handle_S. apply preserves_handlers.
    intros [h|kind'] request' extra'; cbn; [apply preserves_await|apply IH].
Qed.

Lemma preserves_invoke fuel f request extra :
  preserves (invoke fuel f request extra).
Proof. destruct f; cbn; [apply preserves_await|apply preserves_handle]. Qed.

Lemma preserves_updateResource uri id : preserves (updateResource uri id).
Proof.
  unfold updateResource. cbv zeta.
  pose proof preserves_call_readMessages. pose proof preserves_call_notification.
  unfold console_warn. solve_preserves.
Qed.


Lemma getProtocols_NoDup w protocols w1 :
  getProtocols w = (Ok protocols, w1) → NoDup protocols.
Proof.
  rewrite getProtocols_eq. intros [= H _].
  destruct (fst (getResources (bus w) (ext w))) as [resources| |]; [|done..].
  destruct (Array_map protocolOf (default [] resources)); [done|].
  injection H as <-. apply Array_from_Set_NoDup.
Qed.

Lemma this_eq w : this w = (Ok (bus w), w).
Proof. reflexivity. Qed.

(** C4.  When discovery succeeds, the list-tools handler answers with the
    tools of the handler registered for list-tools requests, if there is
    one and it answers with a [tools] array, followed by one synthesized
    tool per discovered protocol, the protocols being distinct.  A
    synthesized tool has the protocol as its name, a description that
    quotes the name of the resource template, and an input schema of type
    object whose properties [uri] and [message] are strings and are both
    required. *)
Theorem listTools_spec (fuel : nat) (request extra : Value) (w : World) :
  let key := printZodSchema ListToolsRequestSchema in
  let t := resourceTemplate (bus w) in
  (∀ protocols w1,
     requestHandlers (bus w) !! key = None →
     getProtocols w = (Ok protocols, w1) →
     handle (S fuel) ListTools request extra w
     = (Ok (VObj [ (js "tools", VArr (tool t <$> protocols)) ]), w1)
     ∧ NoDup protocols)
  ∧ (∀ f response original w0 protocols w1,
     requestHandlers (bus w) !! key = Some f →
     invoke fuel f request extra w = (Ok response, w0) →
     get response (js "tools") = inr (VArr original) →
     getProtocols w0 = (Ok protocols, w1) →
     handle (S fuel) ListTools request extra w
     = (Ok (VObj [ (js "tools", VArr (original ++ (tool t <$> protocols))) ]), w1)
     ∧ NoDup protocols)
  ∧ (∀ p,
     get (tool t p) (js "name") = inr (VStr p)
     ∧ get (tool t p) (js "description")
       = inr (VStr (js "Send a message on the " ++ Template_name t
                    ++ js " protocol using the resource URI"))
     ∧ get_path (tool t p) [ js "inputSchema"; js "type" ]
       = inr (VStr (js "object"))
     ∧ get_path (tool t p) [ js "inputSchema"; js "properties"; js "uri"; js "type" ]
       = inr (VStr (js "string"))
     ∧ get_path (tool t p) [ js "inputSchema"; js "properties"; js "message"; js "type" ]
       = inr (VStr (js "string"))
     ∧ get_path (tool t p) [ js "inputSchema"; js "required" ]
       = inr (VArr [ VStr (js "uri"); VStr (js "message") ])).
Proof.
  intros key t. split; [|split].
  - intros protocols w1 Hreg Hdisc. split; [|by eapply getProtocols_NoDup].
    pose proof (getProtocols_world _ _ _ Hdisc) as Hw1.
    assert (Hbus : bus w1 = bus w) by (by rewrite Hw1).
    rewrite handle_S. unfold listToolsHandler.
    rewrite (bind_Ok _ _ _ _ _ (requestHandlers_get_eq _ _)). fold key.
    rewrite Hreg.
    rewrite (bind_Ok (ret _) _ w w (VObj [ (js "tools", VArr []) ])) by done.
    rewrite (bind_Ok _ _ _ _ _ Hdisc).
    rewrite (bind_Ok _ _ _ _ _ (this_eq _)). cbv zeta.
    rewrite (bind_lift _ (VArr []) _) by done.
    rewrite (bind_lift _ [] _) by done.
    by rewrite Hbus.
  - intros f response original w0 protocols w1 Hreg Hinv Hget Hdisc.
    split; [|by eapply getProtocols_NoDup].
    pose proof (getProtocols_world _ _ _ Hdisc) as Hw1.
    assert (Hbus : bus w1 = bus w).
    { destruct (preserves_invoke fuel f request extra w) as [Hb _].
      rewrite Hinv in Hb. cbn in Hb. by rewrite Hw1. }
    rewrite handle_S. unfold listToolsHandler.
    rewrite (bind_Ok _ _ _ _ _ (requestHandlers_get_eq _ _)). fold key.
    rewrite Hreg.
    rewrite (bind_Ok _ _ _ _ _ Hinv).
    rewrite (bind_Ok _ _ _ _ _ Hdisc).
    rewrite (bind_Ok _ _ _ _ _ (this_eq _)). cbv zeta.
    rewrite (bind_lift _ _ _ Hget).
    rewrite (bind_lift _ original _) by done.
    by rewrite Hbus.
  - intros p. by repeat split.
Qed.


(** C5.  A read-resource request for a URI is answered, when
    [readMessages(uri)] resolves to a list, by a single content item for
    that URI, of type application/json, whose text is the JSON text of
    [{uri, messages}] with that list; when it resolves to [undefined], by
    the handler registered for read-resource requests, called with the
    same request, and by empty contents when there is none. *)
Theorem readResource_spec (fuel : nat) (request extra params uri : Value)
    (w : World) (x : Ext) :
  get request (js "params") = inr params →
  get params (js "uri") = inr uri →
  let result := handle (S fuel) ReadResource request extra w in
  let w1 := logged (EReadMessages uri) x w in
  (∀ messages,
     readMessages (bus w) uri (ext w) = (Ok (Some messages), x) →
     result
     = (Ok (VObj [ (js "contents",
              VArr [ VObj [ (js "uri", uri);
                            (js "mimeType", VStr (js "application/json"));
                            (js "text",
                              JSON_stringify
                                (VObj [ (js "uri", uri);
                                        (js "messages",
                                          VArr (Message_toValue <$> messages)) ])
                                VNull (VNum 2)) ] ]) ]),
        w1))
  ∧ (∀ f,
     readMessages (bus w) uri (ext w) = (Ok None, x) →
     requestHandlers (bus w) !! printZodSchema ReadResourceRequestSchema = Some f →
     result = invoke fuel f request extra w1)
  ∧ (readMessages (bus w) uri (ext w) = (Ok None, x) →
     requestHandlers (bus w) !! printZodSchema ReadResourceRequestSchema = None →
     result = (Ok (VObj [ (js "contents", VArr []) ]), w1)).
Proof.
  intros Hparams Huri result w1. subst result.
  rewrite handle_S. unfold readResourceHandler.
  rewrite (bind_lift _ _ _ Hparams), (bind_lift _ _ _ Huri).
  split; [|split].
  - intros messages Hread.
    rewrite (bind_Ok _ _ w w1 (Some messages)); [done|].
    by rewrite call_readMessages_eq, Hread.
  - intros f Hread Hreg.
    rewrite (bind_Ok _ _ w w1 None) by (by rewrite call_readMessages_eq, Hread).
    rewrite (bind_Ok _ _ _ _ _ (requestHandlers_get_eq _ _)).
    change (bus w1) with (bus w). by rewrite Hreg.
  - intros Hread Hreg.
    rewrite (bind_Ok _ _ w w1 None) by (by rewrite call_readMessages_eq, Hread).
    rewrite (bind_Ok _ _ _ _ _ (requestHandlers_get_eq _ _)).
    change (bus w1) with (bus w). by rewrite Hreg.
Qed.


(** ** Notifications *)

Lemma Array_find_spec {A} (pred : A → bool) (xs : list A) :
  match Array_find pred xs with
  | Some x =>
      ∃ before after,
        xs = before ++ x :: after
        ∧ pred x = true ∧ Forall (λ y, pred y = false) before
  | None => Forall (λ y, pred y = false) xs
  end.
Proof.
  induction xs as [|y xs IH]; cbn; [constructor|].
  destruct (pred y) eqn:Hy.
  - exists [], xs. by repeat split.
  - destruct (Array_find pred xs) as [x|].
    + destruct IH as (before & after & -> & Hx & Hb).
      exists (y :: before), after. repeat split; [done|by constructor].
    + by constructor.
Qed.

(** What [updateResource] does, case by case. *)
Lemma updateResource_eq uri id w :
  updateResource uri id w
  = (Ok tt,
     match readMessages (bus w) (VStr uri) (ext w) with
     | (Ok messages, x) =>
         let msg :=
           contentUpdated
             (from_option Message_toValue VNull
                (messages ≫= Array_find (λ m, bool_decide (Message_id m = id)))) in
         let l :=
           log w ++ [ EReadMessages (VStr uri);
                      EConsoleWarn [ VStr (js "sending notification 1") ];
                      EConsoleWarn [ VStr (js "sending notification 2"); msg ] ] in
         if server (bus w)
         then with_ext (snd (Server_notification msg x))
                (with_log (l ++ [ ENotification msg ]) w)
         else with_ext x (with_log l w)
     | (_, x) => logged (EReadMessages (VStr uri)) x w
     end).
Proof.
  unfold updateResource. cbv zeta. unfold floating at 1. f_equal.
  unfold mbind at 1, M_bind at 1, bind at 1. rewrite call_readMessages_eq.
  destruct (readMessages (bus w) (VStr uri) (ext w)) as [[messages|e|] x];
    [|done..].
  cbn [fst snd]. unfold call_notification, this_server, console_warn, logged.
  unfold_M. cbn. destruct (server (bus w)); cbn.
  - destruct (Server_notification _ x) as [r x']. cbn.
    by rewrite <- !app_assoc.
  - by rewrite <- !app_assoc.
Qed.


Lemma notifications_app l l' :
  notifications (l ++ l') = notifications l ++ notifications l'.
Proof. apply omap_app. Qed.

Lemma resourceUpdates_app l l' :
  resourceUpdates (l ++ l') = resourceUpdates l ++ resourceUpdates l'.
Proof. apply omap_app. Qed.

(** C6.  On an attached bus, when [readMessages(uri)] resolves,
    [updateResource(uri, id)] sends one notification, whose method is
    [notifications/resources/content_updated] and whose [params.content]
    is the first message of the list with that id, in full, or [null] when
    the list has none or is absent. *)
Theorem updateResource_content_updated (uri id : list N) (w : World)
    (messages : option (list ChatNotificationMessage)) (x : Ext) :
  server (bus w) = true →
  readMessages (bus w) (VStr uri) (ext w) = (Ok messages, x) →
  ∃ content,
    fst (updateResource uri id w) = Ok tt
    ∧ notifications (log (snd (updateResource uri id w)))
      = notifications (log w)
        ++ [ VObj [ (js "method",
                      VStr (js "notifications/resources/content_updated"));
                    (js "params", VObj [ (js "content", content) ]) ] ]
    ∧ match messages with
      | Some ms =>
          (∃ before m after,
             ms = before ++ m :: after
             ∧ Message_id m = id
             ∧ Forall (λ m', Message_id m' ≠ id) before
             ∧ content = Message_toValue m)
          ∨ (Forall (λ m', Message_id m' ≠ id) ms ∧ content = VNull)
      | None => content = VNull
      end.
Proof.
  intros Hserver Hread.
  exists (from_option Message_toValue VNull
            (messages ≫= Array_find (λ m, bool_decide (Message_id m = id)))).
  rewrite updateResource_eq, Hread, Hserver. cbn [fst snd].
  split; [done|]. split.
  - cbn [log with_ext with_log]. rewrite !notifications_app. cbn.
    by rewrite app_nil_r.
  - destruct messages as [ms|]; [|done]. cbn.
    pose proof (Array_find_spec (λ m, bool_decide (Message_id m = id)) ms) as Hf.
    destruct (Array_find _ ms) as [m|].
    + left. destruct Hf as (before & after & -> & Hm & Hb).
      exists before, m, after. split; [done|].
      split; [by apply bool_decide_eq_true in Hm|]. split; [|done].
      eapply Forall_impl; [exact Hb|]. intros m' Hm'.
      by apply bool_decide_eq_false in Hm'.
    + right. split; [|done].
      eapply Forall_impl; [exact Hf|]. intros m' Hm'.
      by apply bool_decide_eq_false in Hm'.
Qed.

(** C1 fails on the code: [updateResource] never calls
    [sendResourceUpdated].  The arrow function of lines 271-282 that would
    call it is built and not called, so on every bus, for every URI and
    id, the call resolves and the log holds no resource-updated
    notification that was not there before. *)
Theorem updateResource_sends_no_resource_updated (uri id : list N) (w : World) :
  fst (updateResource uri id w) = Ok tt
  ∧ resourceUpdates (log (snd (updateResource uri id w)))
    = resourceUpdates (log w).
Proof.
  rewrite updateResource_eq. split; [done|]. cbn [snd].
  destruct (readMessages (bus w) (VStr uri) (ext w)) as [[messages|e|] x];
    cbv zeta; [destruct (server (bus w))|..];
    cbn [log logged with_ext with_log];
    rewrite ?resourceUpdates_app; cbn; by rewrite ?app_nil_r.
Qed.


(** ** Registration *)

Lemma attach_fresh w :
  setRequestHandler_overridden (host w) = false →
  attach w
  = (Ok tt,
     with_server true
       (with_host
          {| setRequestHandler_overridden := true;
             Server_registered :=
               [ (ListResourceTemplatesRequestSchema, BusFn ListResourceTemplates);
                 (ListResourcesRequestSchema, BusFn ListResources);
                 (ReadResourceRequestSchema, BusFn ReadResource);
                 (CallToolRequestSchema, BusFn CallTool);
                 (ListToolsRequestSchema, BusFn ListTools) ]
               ++ Server_registered (host w) |} w)).
Proof.
  intros H. unfold attach, Server_setRequestHandler, override_setRequestHandler,
    set_server. unfold_M. cbn. by rewrite H.
Qed.

Lemma Server_setRequestHandler_Ok requestSchema handler w :
  ∃ w', Server_setRequestHandler requestSchema handler w = (Ok tt, w').
Proof.
  unfold Server_setRequestHandler.
  destruct (setRequestHandler_overridden (host w)); by eexists.
Qed.

Lemma attach_overrides w :
  fst (attach w) = Ok tt
  ∧ setRequestHandler_overridden (host (snd (attach w))) = true
  ∧ server (bus (snd (attach w))) = true.
Proof.
  unfold attach.
  destruct (Server_setRequestHandler_Ok ListToolsRequestSchema
              (BusFn ListTools) w) as [w1 H1].
  rewrite (bind_Ok _ _ _ _ _ H1).
  destruct (Server_setRequestHandler_Ok CallToolRequestSchema
              (BusFn CallTool) w1) as [w2 H2].
  rewrite (bind_Ok _ _ _ _ _ H2).
  destruct (Server_setRequestHandler_Ok ReadResourceRequestSchema
              (BusFn ReadResource) w2) as [w3 H3].
  rewrite (bind_Ok _ _ _ _ _ H3).
  destruct (Server_setRequestHandler_Ok ListResourcesRequestSchema
              (BusFn ListResources) w3) as [w4 H4].
  rewrite (bind_Ok _ _ _ _ _ H4).
  destruct (Server_setRequestHandler_Ok ListResourceTemplatesRequestSchema
              (BusFn ListResourceTemplates) w4) as [w5 H5].
  rewrite (bind_Ok _ _ _ _ _ H5).
  done.
Qed.

(** One call on a bus whose host has the overridden entry point. *)
Lemma step_captured op w :
  setRequestHandler_overridden (host w) = true →
  host (step op w) = host w
  ∧ requestHandlers (bus (step op w))
    = match op with
      | Register requestSchema handler =>
          <[printZodSchema requestSchema := handler]> (requestHandlers (bus w))
      | _ => requestHandlers (bus w)
      end.
Proof.
  intros H. destruct op as [requestSchema handler|fuel kind request extra|uri id];
    cbn [step].
  - unfold Server_setRequestHandler. by rewrite H.
  - destruct (preserves_handle fuel kind request extra w) as [-> ->]. done.
  - destruct (preserves_updateResource uri id w) as [-> ->]. done.
Qed.

Lemma steps_snoc ops op w : steps (ops ++ [op]) w = step op (steps ops w).
Proof. unfold steps. by rewrite foldl_app. Qed.

Lemma lastRegistered_snoc key ops op :
  lastRegistered key (ops ++ [op])
  = match op with
    | Register requestSchema handler =>
        if decide (printZodSchema requestSchema = key) then Some handler
        else lastRegistered key ops
    | _ => lastRegistered key ops
    end.
Proof. unfold lastRegistered. by rewrite foldl_app. Qed.

Lemma steps_captured ops w :
  setRequestHandler_overridden (host w) = true →
  host (steps ops w) = host w
  ∧ ∀ key,
      requestHandlers (bus (steps ops w)) !! key
      = match lastRegistered key ops with
        | Some handler => Some handler
        | None => requestHandlers (bus w) !! key
        end.
Proof.
  intros H. induction ops as [|op ops [IHhost IHreg]] using rev_ind; [done|].
  rewrite steps_snoc.
  destruct (step_captured op (steps ops w)) as [Hhost Hreg];
    [by rewrite IHhost|].
  split; [by rewrite Hhost|]. intros key.
  rewrite Hreg, lastRegistered_snoc.
  destruct op as [requestSchema handler| |]; [|apply IHreg..].
  rewrite lookup_insert. destruct (decide (printZodSchema requestSchema = key));
    [done|apply IHreg].
Qed.

(** C9.  [attach] succeeds and leaves the host's registration entry point
    overridden.  From then on, whatever the application does (register
    handlers, have requests served, report new messages), the host itself
    is given no further handler, and the registry holds under each
    request-kind identity the handler registered last under it, or what it
    held at attachment when none was; an identity that has a handler keeps
    having one. *)
Theorem registrations_after_attach_are_captured (w : World) (ops : list Op) :
  let w1 := snd (attach w) in
  fst (attach w) = Ok tt
  ∧ setRequestHandler_overridden (host w1) = true
  ∧ host (steps ops w1) = host w1
  ∧ (∀ key,
       requestHandlers (bus (steps ops w1)) !! key
       = match lastRegistered key ops with
         | Some handler => Some handler
         | None => requestHandlers (bus w1) !! key
         end)
  ∧ (∀ requestSchema handler,
       requestHandlers (bus (steps (ops ++ [ Register requestSchema handler ]) w1))
         !! printZodSchema requestSchema
       = Some handler)
  ∧ (∀ ops' key,
       is_Some (requestHandlers (bus (steps ops w1)) !! key) →
       is_Some (requestHandlers (bus (steps (ops ++ ops') w1)) !! key)).
Proof.
  intros w1. destruct (attach_overrides w) as (Hok & Hover & _).
  fold w1 in Hover.
  split; [done|]. split; [done|].
  destruct (steps_captured ops w1 Hover) as [Hhost Hreg].
  split; [done|]. split; [done|]. split.
  - intros requestSchema handler.
    destruct (steps_captured (ops ++ [ Register requestSchema handler ]) w1 Hover)
      as [_ ->].
    rewrite lastRegistered_snoc. by rewrite decide_True.
  - intros ops' key Hsome.
    assert (Hover2 : setRequestHandler_overridden (host (steps ops w1)) = true)
      by (by rewrite Hhost).
    unfold steps. rewrite foldl_app. fold (steps ops w1).
    fold (steps ops' (steps ops w1)).
    destruct (steps_captured ops' (steps ops w1) Hover2) as [_ ->].
    by destruct (lastRegistered key ops').
Qed.


(** * Further properties *)

(** ** The URI parser, read backwards *)

(** The first occurrences of a list, in order. *)
Fixpoint first_occurrences (xs : list (list N)) : list (list N) :=
  match xs with
  | [] => []
  | x :: xs' => x :: filter (λ y, y ≠ x) (first_occurrences xs')
  end.

Lemma span_stop f s :
  match snd (span f s) with [] => True | c :: _ => f c = false end.
Proof.
  induction s as [|x s IH]; [done|]. cbn.
  destruct (f x) eqn:Hx; [|done]. by destruct (span f s).
Qed.

Lemma parseChatProtocolUrl_parts p rest :
  p ≠ [] → colon ∉ p →
  parseChatProtocolUrl (js "chat+" ++ p ++ js ":///" ++ rest)
  = Some (js "chat+" ++ p, fst (span notLineTerminator rest)).
Proof.
  intros Hp Hc. rewrite parseChatProtocolUrl_closed, strip_prefix_app.
  rewrite (span_app_stop notColon p (js ":///" ++ rest));
    [|by apply notColon_Forall|done].
  cbn [fst snd]. rewrite strip_prefix_app. by destruct p.
Qed.

(** What a successful parse says of its argument. *)
Lemma parseChatProtocolUrl_inv url protocol pathname :
  parseChatProtocolUrl url = Some (protocol, pathname) →
  ∃ p rest,
    p ≠ [] ∧ (colon ∉ p)
    ∧ protocol = js "chat+" ++ p
    ∧ url = js "chat+" ++ p ++ js ":///" ++ pathname ++ rest
    ∧ Forall (λ c, isLineTerminator c = false) pathname
    ∧ match rest with [] => True | c :: _ => isLineTerminator c = true end.
Proof.
  rewrite parseChatProtocolUrl_closed.
  destruct (strip_prefix (js "chat+") url) as [rest0|] eqn:H0; [|done].
  apply strip_prefix_Some in H0.
  destruct (span_spec notColon rest0) as [Hsplit Hall].
  destruct (fst (span notColon rest0)) as [|x name] eqn:Hname; [done|].
  destruct (strip_prefix (js ":///") (snd (span notColon rest0)))
    as [tail|] eqn:H1; [|done].
  apply strip_prefix_Some in H1. intros [= <- <-].
  destruct (span_spec notLineTerminator tail) as [Htail Hpath].
  pose proof (span_stop notLineTerminator tail) as Hstop.
  exists (x :: name), (snd (span notLineTerminator tail)).
  split; [done|]. split; [by apply Forall_notColon|]. split; [done|].
  split; [rewrite H0, Hsplit, H1, Htail at 1; done|]. split.
  - eapply Forall_impl; [exact Hpath|]. intros c Hx.
    unfold notLineTerminator in Hx. by destruct (isLineTerminator c).
  - destruct (snd (span notLineTerminator tail)) as [|c r]; [done|].
    unfold notLineTerminator in Hstop. by destruct (isLineTerminator c).
Qed.

Lemma notLineTerminator_Forall s :
  Forall (λ c, isLineTerminator c = false) s →
  Forall (λ c, notLineTerminator c = true) s.
Proof.
  intros H. eapply Forall_impl; [exact H|].
  intros c Hc. unfold notLineTerminator. by rewrite Hc.
Qed.


(** X1.  Whatever the parser returns is read off the front of its
    argument: the URL is the protocol, a colon and three slashes, the
    pathname, and a remainder that is empty or starts with a line
    terminator.  The protocol is longer than [chat+] and has no colon; the
    pathname has no line terminator. *)
Theorem parseChatProtocolUrl_reads_a_prefix (url protocol pathname : list N) :
  parseChatProtocolUrl url = Some (protocol, pathname) →
  ∃ rest,
    url = protocol ++ js ":///" ++ pathname ++ rest
    ∧ match rest with [] => True | c :: _ => isLineTerminator c = true end
    ∧ (∃ p, p ≠ [] ∧ protocol = js "chat+" ++ p)
    ∧ (colon ∉ protocol)
    ∧ Forall (λ c, isLineTerminator c = false) pathname.
Proof.
  intros H.
  destruct (parseChatProtocolUrl_inv _ _ _ H)
    as (p & rest & Hp & Hc & -> & -> & Hpath & Hrest).
  exists rest. split; [by rewrite <- !app_assoc|]. split; [done|].
  split; [by exists p|]. split; [|done].
  intros [Hin|Hin]%elem_of_app; [|done].
  vm_compute in Hin. repeat (apply elem_of_cons in Hin as [[=]|Hin]).
  by apply elem_of_nil in Hin.
Qed.

(** X2.  Putting the two parts of a parsed URL back together, with a colon
    and three slashes between them, gives a URL that parses to the same
    two parts. *)
Theorem parseChatProtocolUrl_round_trip (url protocol pathname : list N) :
  parseChatProtocolUrl url = Some (protocol, pathname) →
  parseChatProtocolUrl (protocol ++ js ":///" ++ pathname)
  = Some (protocol, pathname).
Proof.
  intros H.
  destruct (parseChatProtocolUrl_inv _ _ _ H)
    as (p & rest & Hp & Hc & -> & _ & Hpath & _).
  rewrite <- app_assoc, parseChatProtocolUrl_parts by done.
  by rewrite span_all by by apply notLineTerminator_Forall.
Qed.

(** X3.  A URL that parses keeps its result when a line terminator and
    anything at all are appended to it: what follows the first line
    terminator of the path is never looked at. *)
Theorem parseChatProtocolUrl_ignores_further_lines (url junk : list N) (c : N) :
  is_Some (parseChatProtocolUrl url) →
  isLineTerminator c = true →
  parseChatProtocolUrl (url ++ c :: junk) = parseChatProtocolUrl url.
Proof.
  intros [[protocol pathname] H] Hc. rewrite H.
  destruct (parseChatProtocolUrl_inv _ _ _ H)
    as (p & rest & Hp & Hcolon & -> & -> & Hpath & Hrest).
  rewrite <- !app_assoc, parseChatProtocolUrl_parts by done.
  rewrite (span_app_stop notLineTerminator pathname (rest ++ c :: junk)).
  - done.
  - by apply notLineTerminator_Forall.
  - unfold notLineTerminator. destruct rest as [|c' rest]; cbn.
    + by rewrite Hc.
    + by rewrite Hrest.
Qed.


(** ** Discovery keeps the order of first occurrence *)

Lemma filter_all (P : list N → Prop) `{!∀ x, Decision (P x)} (l : list (list N)) :
  Forall P l → filter P l = l.
Proof.
  induction 1 as [|x l Hx _ IH]; [done|].
  by rewrite filter_cons_True, IH by done.
Qed.

Lemma first_occurrences_filter (P : list N → Prop) `{!∀ x, Decision (P x)}
    (l : list (list N)) :
  first_occurrences (filter P l) = filter P (first_occurrences l).
Proof.
  induction l as [|a l IH]; [done|]. destruct (decide (P a)) as [Ha|Ha].
  - rewrite filter_cons_True by done. cbn [first_occurrences].
    rewrite filter_cons_True by done. f_equal.
    rewrite IH, !list_filter_filter. apply list_filter_iff.
    intros y. split; intros [? ?]; by split.
  - rewrite filter_cons_False by done. cbn [first_occurrences].
    rewrite filter_cons_False by done.
    rewrite IH, list_filter_filter. apply list_filter_iff.
    intros y. split; [|by intros [? _]].
    intros Hy. split; [done|]. by intros ->.
Qed.

Lemma foldl_Set_add_first_occurrences xs s :
  foldl Set_add s xs = s ++ first_occurrences (filter (λ y, y ∉ s) xs).
Proof.
  revert s. induction xs as [|x xs IH]; intros s; cbn [foldl].
  - by rewrite app_nil_r.
  - rewrite IH. unfold Set_add. destruct (decide (x ∈ s)) as [Hin|Hout].
    + by rewrite filter_cons_False by (by intros ?).
    + rewrite filter_cons_True by done. cbn [first_occurrences].
      rewrite <- app_assoc. cbn [app]. do 2 f_equal.
      rewrite <- first_occurrences_filter, list_filter_filter. f_equal.
      apply list_filter_iff. intros y.
      rewrite not_elem_of_app, list_elem_of_singleton.
      split; intros [? ?]; by split.
Qed.

Lemma Array_from_Set_first_occurrences xs :
  Array_from_Set xs = first_occurrences xs.
Proof.
  unfold Array_from_Set. rewrite foldl_Set_add_first_occurrences. cbn [app].
  rewrite filter_all; [done|].
  apply Forall_forall. intros y _. apply not_elem_of_nil.
Qed.

Lemma first_occurrences_NoDup xs : NoDup xs → first_occurrences xs = xs.
Proof.
  induction 1 as [|x xs Hx _ IH]; [done|]. cbn. rewrite IH. f_equal.
  apply filter_all, Forall_forall. by intros y Hy ->.
Qed.

(** X4.  When the URIs of the resources all parse, discovery lists the
    protocols in the order in which the resource list first shows them;
    when the resources have distinct protocols, that is the list of their
    protocols, resource by resource. *)
Theorem getProtocols_first_occurrence_order (w : World)
    (resources : option (list Resource)) (x : Ext) :
  getResources (bus w) (ext w) = (Ok resources, x) →
  Forall (λ r, is_Some (protocol r)) (default [] resources) →
  fst (getProtocols w)
  = Ok (first_occurrences (omap protocol (default [] resources)))
  ∧ (NoDup (omap protocol (default [] resources)) →
     fst (getProtocols w) = Ok (omap protocol (default [] resources))).
Proof.
  intros Hw Hall. rewrite getProtocols_eq, Hw. cbn [fst].
  rewrite Array_map_protocolOf_ok by done.
  rewrite Array_from_Set_first_occurrences. split; [done|].
  intros Hnd. by rewrite first_occurrences_NoDup.
Qed.


(** ** Failures inside the handlers *)

Lemma bind_Throw {A B} (m : M A) (k : A → M B) (w w' : World) (e : Exn) :
  m w = (Throw e, w') → (m ≫= k) w = (Throw e, w').
Proof. intros H. unfold_M. by rewrite H. Qed.

Lemma bind_Pending {A B} (m : M A) (k : A → M B) (w w' : World) :
  m w = (Pending, w') → (m ≫= k) w = (Pending, w').
Proof. intros H. unfold_M. by rewrite H. Qed.

Lemma bind_lift_inl {A B} (r : Exn + A) (e : Exn) (k : A → M B) (w : World) :
  r = inl e → (lift r ≫= k) w = (Throw e, w).
Proof. by intros ->. Qed.

Lemma SendChatMessageSchema_parse_inl args e :
  SendChatMessageSchema_parse args = inl e → e = ZodError.
Proof.
  unfold SendChatMessageSchema_parse. intros H.
  repeat case_match; congruence.
Qed.

Lemma invoke_AppFn fuel handler request extra w :
  invoke fuel (AppFn handler) request extra w
  = (fst (handler request extra (ext w)),
     with_ext (snd (handler request extra (ext w))) w).
Proof. cbn. unfold await. by destruct (handler request extra (ext w)). Qed.

(** X5.  When discovery throws, a call-tool request throws the same error
    whatever tool it names: [getResources] is the only call made, so
    neither [writeMessage] nor a registered call-tool handler is reached. *)
Theorem callTool_discovery_failure (fuel : nat)
    (request extra params name args : Value) (w w1 : World) (e : Exn) :
  get request (js "params") = inr params →
  get params (js "name") = inr name →
  get params (js "arguments") = inr args →
  getProtocols w = (Throw e, w1) →
  handle (S fuel) CallTool request extra w = (Throw e, w1)
  ∧ w1 = logged EGetResources (snd (getResources (bus w) (ext w))) w.
Proof.
  intros Hparams Hname Hargs Hdisc.
  split; [|by eapply getProtocols_world].
  rewrite handle_S. unfold callToolHandler.
  rewrite (bind_lift _ _ _ Hparams), (bind_lift _ _ _ Hname),
    (bind_lift _ _ _ Hargs).
  by rewrite (bind_Throw _ _ _ _ _ Hdisc).
Qed.

(** X6.  A call-tool request that names a discovered protocol with
    arguments that are not an object with a string [uri] and a string
    [message] throws the validation error: [writeMessage] is not called and
    a registered call-tool handler is not asked. *)
Theorem callTool_invalid_arguments (fuel : nat)
    (request extra params name args : Value) (w w1 : World)
    (protocols : list (list N)) (p : list N) :
  get request (js "params") = inr params →
  get params (js "name") = inr name →
  get params (js "arguments") = inr args →
  getProtocols w = (Ok protocols, w1) →
  name = VStr p → p ∈ protocols →
  (∀ uri message, SendChatMessageSchema_parse args ≠ inr (uri, message)) →
  handle (S fuel) CallTool request extra w = (Throw ZodError, w1)
  ∧ writes (log w1) = writes (log w).
Proof.
  intros Hparams Hname Hargs Hdisc -> Hin Hbad.
  pose proof (getProtocols_world _ _ _ Hdisc) as Hw1. split.
  - rewrite handle_S. unfold callToolHandler.
    rewrite (bind_lift _ _ _ Hparams), (bind_lift _ _ _ Hname),
      (bind_lift _ _ _ Hargs).
    rewrite (bind_Ok _ _ _ _ _ Hdisc).
    rewrite includes_true by done.
    destruct (SendChatMessageSchema_parse args) as [e|[uri message]] eqn:Hparse.
    + rewrite (SendChatMessageSchema_parse_inl _ _ Hparse). done.
    + by destruct (Hbad uri message).
  - rewrite Hw1. cbn [log logged with_ext with_log].
    rewrite writes_app. cbn. by rewrite app_nil_r.
Qed.

(** X7.  The list-tools handler asks the registered handler before it
    discovers protocols.  When that handler throws, the request throws the
    same error and the resources are not even fetched; when it answers and
    discovery then throws, the request throws the discovery error, the
    answer is dropped and what the handler did to the application stays. *)
Theorem listTools_asks_fallback_first (fuel : nat) (request extra : Value)
    (w : World) (handler : Value → Value → App Value) :
  requestHandlers (bus w) !! printZodSchema ListToolsRequestSchema
  = Some (AppFn handler) →
  (∀ e x,
     handler request extra (ext w) = (Throw e, x) →
     handle (S fuel) ListTools request extra w = (Throw e, with_ext x w))
  ∧ (∀ response x e w1,
     handler request extra (ext w) = (Ok response, x) →
     getProtocols (with_ext x w) = (Throw e, w1) →
     handle (S fuel) ListTools request extra w = (Throw e, w1)
     ∧ ext w1 = snd (getResources (bus w) x)).
Proof.
  intros Hreg. split.
  - intros e x Hh. rewrite handle_S. unfold listToolsHandler.
    rewrite (bind_Ok _ _ _ _ _ (requestHandlers_get_eq _ _)), Hreg.
    rewrite (bind_Throw _ _ w (with_ext x w) e); [done|].
    by rewrite invoke_AppFn, Hh.
  - intros response x e w1 Hh Hdisc. split.
    + rewrite handle_S. unfold listToolsHandler.
      rewrite (bind_Ok _ _ _ _ _ (requestHandlers_get_eq _ _)), Hreg.
      rewrite (bind_Ok _ _ w (with_ext x w) response)
        by (by rewrite invoke_AppFn, Hh).
      by rewrite (bind_Throw _ _ _ _ _ Hdisc).
    + by rewrite (getProtocols_world _ _ _ Hdisc).
Qed.

(** X8.  A registered list-tools handler whose answer has no iterable
    [tools] (neither an array nor a string) makes the request throw a
    TypeError, after the resources were fetched and the protocols
    discovered. *)
Theorem listTools_fallback_without_tools (fuel : nat) (request extra : Value)
    (w w0 w1 : World) (f : Fn) (response : Value) (protocols : list (list N)) :
  requestHandlers (bus w) !! printZodSchema ListToolsRequestSchema = Some f →
  invoke fuel f request extra w = (Ok response, w0) →
  getProtocols w0 = (Ok protocols, w1) →
  match get response (js "tools") with
  | inr (VArr _) | inr (VStr _) => False
  | _ => True
  end →
  handle (S fuel) ListTools request extra w = (Throw TypeError, w1).
Proof.
  intros Hreg Hinv Hdisc Htools.
  rewrite handle_S. unfold listToolsHandler.
  rewrite (bind_Ok _ _ _ _ _ (requestHandlers_get_eq _ _)), Hreg.
  rewrite (bind_Ok _ _ _ _ _ Hinv), (bind_Ok _ _ _ _ _ Hdisc).
  rewrite (bind_Ok _ _ _ _ _ (this_eq _)). cbv zeta.
  destruct (get response (js "tools")) as [e|v] eqn:Hget.
  - destruct response; try discriminate Hget; by injection Hget as <-.
  - rewrite (bind_lift _ _ _ eq_refl). by destruct v.
Qed.


(** ** The two listing handlers without a claim *)

(** X9.  The list-resources handler answers with the resources of
    [getResources], an absent list counting as empty, followed by the
    resources of the handler registered for list-resources requests; the
    resources are fetched first, the handler is asked second.  Without a
    registered handler the answer is the local resources alone. *)
Theorem listResources_spec (fuel : nat) (request extra : Value) (w : World)
    (resources : option (list Resource)) (x : Ext) :
  getResources (bus w) (ext w) = (Ok resources, x) →
  let key := printZodSchema ListResourcesRequestSchema in
  let w1 := logged EGetResources x w in
  let local := Resource_toValue <$> default [] resources in
  (requestHandlers (bus w) !! key = None →
   handle (S fuel) ListResources request extra w
   = (Ok (VObj [ (js "resources", VArr local) ]), w1))
  ∧ (∀ f response others w2,
     requestHandlers (bus w) !! key = Some f →
     invoke fuel f request extra w1 = (Ok response, w2) →
     get response (js "resources") = inr (VArr others) →
     handle (S fuel) ListResources request extra w
     = (Ok (VObj [ (js "resources", VArr (local ++ others)) ]), w2)).
Proof.
  intros Hres key w1 local.
  assert (Hcall : call_getResources w = (Ok resources, w1)).
  { by rewrite call_getResources_eq, Hres. }
  rewrite handle_S. unfold listResourcesHandler.
  rewrite (bind_Ok _ _ _ _ _ Hcall). cbv zeta.
  rewrite (bind_Ok _ _ _ _ _ (requestHandlers_get_eq _ _)).
  change (bus w1) with (bus w). fold key. split.
  - intros ->.
    rewrite (bind_Ok (ret _) _ w1 w1 (VObj [ (js "resources", VArr []) ]))
      by done.
    rewrite (bind_lift _ (VArr []) _) by done.
    rewrite (bind_lift _ [] _) by done.
    subst local. by rewrite app_nil_r.
  - intros f response others w2 -> Hinv Hget.
    rewrite (bind_Ok _ _ _ _ _ Hinv), (bind_lift _ _ _ Hget).
    by rewrite (bind_lift _ others _) by done.
Qed.

(** X10.  Listing resources never parses their URIs.  A resource whose
    URI the parser rejects is listed like any other, while the same
    resource list makes every call-tool request throw the discovery
    error. *)
Theorem malformed_resource_is_listed_but_breaks_tools (fuel : nat)
    (request extra callRequest params name args : Value) (w : World)
    (resources : list Resource) (x : Ext) (r : Resource) :
  getResources (bus w) (ext w) = (Ok (Some resources), x) →
  r ∈ resources →
  parseChatProtocolUrl (Resource_uri r) = None →
  requestHandlers (bus w) !! printZodSchema ListResourcesRequestSchema = None →
  get callRequest (js "params") = inr params →
  get params (js "name") = inr name →
  get params (js "arguments") = inr args →
  (∃ listed,
     fst (handle (S fuel) ListResources request extra w)
     = Ok (VObj [ (js "resources", VArr listed) ])
     ∧ Resource_toValue r ∈ listed)
  ∧ ∃ uri, fst (handle (S fuel) CallTool callRequest extra w)
           = Throw (Error (js "Failed to parse resource URI: " ++ uri)).
Proof.
  intros Hres Hin Hr Hreg Hparams Hname Hargs. split.
  - exists (Resource_toValue <$> resources).
    assert (Hcall : call_getResources w
                    = (Ok (Some resources), logged EGetResources x w)).
    { by rewrite call_getResources_eq, Hres. }
    rewrite handle_S. unfold listResourcesHandler.
    rewrite (bind_Ok _ _ _ _ _ Hcall). cbv zeta.
    rewrite (bind_Ok _ _ _ _ _ (requestHandlers_get_eq _ _)).
    change (bus (logged EGetResources x w)) with (bus w). rewrite Hreg.
    rewrite (bind_Ok (ret _) _ _ (logged EGetResources x w)
               (VObj [ (js "resources", VArr []) ])) by done.
    rewrite (bind_lift _ (VArr []) _) by done.
    rewrite (bind_lift _ [] _) by done.
    cbn [fst default from_option id]. rewrite app_nil_r.
    split; [done|]. by apply list_elem_of_fmap_2.
  - destruct (first_unparsed resources r Hin)
      as (before & r' & after & -> & Hb & Hr').
    { unfold protocol. by rewrite Hr. }
    exists (Resource_uri r').
    rewrite handle_S. unfold callToolHandler.
    rewrite (bind_lift _ _ _ Hparams), (bind_lift _ _ _ Hname),
      (bind_lift _ _ _ Hargs).
    rewrite (bind_Throw _ _ w (logged EGetResources x w)
               (Error (js "Failed to parse resource URI: " ++ Resource_uri r')));
      [done|].
    rewrite getProtocols_eq, Hres. cbn [fst snd].
    change (default [] (Some (before ++ r' :: after)))
      with (before ++ r' :: after).
    by rewrite Array_map_protocolOf_throw.
Qed.

(** X11.  The list-resource-templates handler answers with the template
    of the bus followed by the templates of the handler registered for
    that request kind.  Without a registered handler it answers with the
    one template and calls nothing: the world is as it was. *)
Theorem listResourceTemplates_spec (fuel : nat) (request extra : Value)
    (w : World) :
  let key := printZodSchema ListResourceTemplatesRequestSchema in
  let local := Template_toValue (resourceTemplate (bus w)) in
  (requestHandlers (bus w) !! key = None →
   handle (S fuel) ListResourceTemplates request extra w
   = (Ok (VObj [ (js "resourceTemplates", VArr [ local ]) ]), w))
  ∧ (∀ f response others w1,
     requestHandlers (bus w) !! key = Some f →
     invoke fuel f request extra w = (Ok response, w1) →
     get response (js "resourceTemplates") = inr (VArr others) →
     handle (S fuel) ListResourceTemplates request extra w
     = (Ok (VObj [ (js "resourceTemplates", VArr (local :: others)) ]), w1)).
Proof.
  intros key local.
  rewrite handle_S. unfold listResourceTemplatesHandler.
  rewrite (bind_Ok _ _ _ _ _ (this_eq _)). cbv zeta.
  rewrite (bind_Ok _ _ _ _ _ (requestHandlers_get_eq _ _)). fold key. split.
  - intros ->.
    rewrite (bind_Ok (ret _) _ w w (VObj [ (js "resourceTemplates", VArr []) ]))
      by done.
    rewrite (bind_lift _ (VArr []) _) by done.
    by rewrite (bind_lift _ [] _) by done.
  - intros f response others w1 -> Hinv Hget.
    rewrite (bind_Ok _ _ _ _ _ Hinv), (bind_lift _ _ _ Hget).
    by rewrite (bind_lift _ others _) by done.
Qed.

(** X12.  When [readMessages] throws, or never settles, so does the
    read-resource request: the handler registered for read-resource
    requests is not asked, whatever it is. *)
Theorem readResource_failure_is_not_delegated (fuel : nat)
    (request extra params uri : Value) (w : World) (x : Ext) :
  get request (js "params") = inr params →
  get params (js "uri") = inr uri →
  (∀ e,
     readMessages (bus w) uri (ext w) = (Throw e, x) →
     handle (S fuel) ReadResource request extra w
     = (Throw e, logged (EReadMessages uri) x w))
  ∧ (readMessages (bus w) uri (ext w) = (Pending, x) →
     handle (S fuel) ReadResource request extra w
     = (Pending, logged (EReadMessages uri) x w)).
Proof.
  intros Hparams Huri.
  rewrite handle_S. unfold readResourceHandler.
  rewrite (bind_lift _ _ _ Hparams), (bind_lift _ _ _ Huri). split.
  - intros e Hread.
    rewrite (bind_Throw _ _ w (logged (EReadMessages uri) x w) e); [done|].
    by rewrite call_readMessages_eq, Hread.
  - intros Hread.
    rewrite (bind_Pending _ _ w (logged (EReadMessages uri) x w)); [done|].
    by rewrite call_readMessages_eq, Hread.
Qed.


(** ** Registration around [attach] *)

(** The registrations among the calls of the application, in order. *)
Definition registrations (ops : list Op) : list (Schema * Fn) :=
  omap (λ op, match op with
              | Register requestSchema handler => Some (requestSchema, handler)
              | _ => None
              end) ops.

Lemma Server_setRequestHandler_overridden requestSchema handler w :
  setRequestHandler_overridden (host w) = true →
  Server_setRequestHandler requestSchema handler w
  = (Ok tt,
     with_requestHandlers
       (λ m, <[printZodSchema requestSchema := handler]> m) w).
Proof. intros H. unfold Server_setRequestHandler. by rewrite H. Qed.

(** X13.  A handler registered after [attach] under the identity of
    call-tool requests, be it through the call-tool schema or through any
    schema that prints alike, answers the call-tool requests that name no
    discovered protocol: the request gets what the handler returns, run on
    the application as discovery left it. *)
Theorem handler_registered_after_attach_is_reached (fuel : nat)
    (request extra params name args : Value) (w w3 : World)
    (requestSchema : Schema) (handler : Value → Value → App Value)
    (protocols : list (list N)) :
  printZodSchema requestSchema = printZodSchema CallToolRequestSchema →
  let w2 := step (Register requestSchema (AppFn handler)) (snd (attach w)) in
  get request (js "params") = inr params →
  get params (js "name") = inr name →
  get params (js "arguments") = inr args →
  getProtocols w2 = (Ok protocols, w3) →
  (∀ p, name = VStr p → p ∉ protocols) →
  handle (S fuel) CallTool request extra w2
  = (fst (handler request extra (ext w3)),
     with_ext (snd (handler request extra (ext w3))) w3).
Proof.
  intros Hkey w2 Hparams Hname Hargs Hdisc Hnot.
  destruct (attach_overrides w) as (_ & Hover & _).
  destruct (step_captured (Register requestSchema (AppFn handler))
              (snd (attach w)) Hover) as [_ Hreg].
  fold w2 in Hreg.
  rewrite (callTool_fallback fuel request extra params name args w2 w3
             protocols) by done.
  rewrite Hreg, <- Hkey, lookup_insert_eq. apply invoke_AppFn.
Qed.

Lemma step_not_captured op w :
  setRequestHandler_overridden (host w) = false →
  setRequestHandler_overridden (host (step op w)) = false
  ∧ requestHandlers (bus (step op w)) = requestHandlers (bus w)
  ∧ Server_registered (host (step op w))
    = match op with
      | Register requestSchema handler =>
          (requestSchema, handler) :: Server_registered (host w)
      | _ => Server_registered (host w)
      end.
Proof.
  intros H. destruct op as [requestSchema handler|fuel kind request extra|uri id];
    cbn [step].
  - unfold Server_setRequestHandler. by rewrite H.
  - destruct (preserves_handle fuel kind request extra w) as [-> ->]. done.
  - destruct (preserves_updateResource uri id w) as [-> ->]. done.
Qed.

Lemma registrations_snoc ops op :
  registrations (ops ++ [op])
  = registrations ops
    ++ match op with
       | Register requestSchema handler => [ (requestSchema, handler) ]
       | _ => []
       end.
Proof. unfold registrations. rewrite omap_app. by destruct op. Qed.

Lemma steps_not_captured ops w :
  setRequestHandler_overridden (host w) = false →
  setRequestHandler_overridden (host (steps ops w)) = false
  ∧ requestHandlers (bus (steps ops w)) = requestHandlers (bus w)
  ∧ Server_registered (host (steps ops w))
    = reverse (registrations ops) ++ Server_registered (host w).
Proof.
  intros H. induction ops as [|op ops (IH1 & IH2 & IH3)] using rev_ind; [done|].
  rewrite steps_snoc.
  destruct (step_not_captured op (steps ops w) IH1) as (H1 & H2 & H3).
  split; [done|]. split; [by rewrite H2|].
  rewrite H3, registrations_snoc, reverse_app, IH3.
  by destruct op.
Qed.

(** X14.  What the application registers with a host before the bus is
    attached goes to the host and not to the registry of the bus, whatever
    else it does in between; [attach] then hands the host the five handlers
    of the bus, list-tools first, and still leaves the registry as it
    was. *)
Theorem registrations_before_attach_stay_with_host (w : World) (ops : list Op) :
  setRequestHandler_overridden (host w) = false →
  let w1 := steps ops w in
  let w2 := snd (attach w1) in
  requestHandlers (bus w1) = requestHandlers (bus w)
  ∧ Server_registered (host w1)
    = reverse (registrations ops) ++ Server_registered (host w)
  ∧ requestHandlers (bus w2) = requestHandlers (bus w)
  ∧ Server_registered (host w2)
    = [ (ListResourceTemplatesRequestSchema, BusFn ListResourceTemplates);
        (ListResourcesRequestSchema, BusFn ListResources);
        (ReadResourceRequestSchema, BusFn ReadResource);
        (CallToolRequestSchema, BusFn CallTool);
        (ListToolsRequestSchema, BusFn ListTools) ]
      ++ reverse (registrations ops) ++ Server_registered (host w).
Proof.
  intros H w1 w2.
  destruct (steps_not_captured ops w H) as (H1 & H2 & H3). fold w1 in H1, H2, H3.
  split; [done|]. split; [done|].
  subst w2. rewrite (attach_fresh w1 H1). cbn [snd]. split; [done|].
  cbn [host with_server with_host Server_registered]. by rewrite H3.
Qed.

(** A handler of the bus that finds itself in the registry. *)
Lemma self_registered_never_answers fuel request extra w :
  requestHandlers (bus w) !! printZodSchema ListResourceTemplatesRequestSchema
  = Some (BusFn ListResourceTemplates) →
  handle fuel ListResourceTemplates request extra w = (Pending, w).
Proof.
  intros Hreg. induction fuel as [|fuel IH]; [done|].
  rewrite handle_S. unfold listResourceTemplatesHandler.
  rewrite (bind_Ok _ _ _ _ _ (this_eq _)). cbv zeta.
  rewrite (bind_Ok _ _ _ _ _ (requestHandlers_get_eq _ _)), Hreg.
  by rewrite (bind_Pending _ _ w w) by exact IH.
Qed.

Lemma attach_again w :
  setRequestHandler_overridden (host w) = true →
  requestHandlers (bus (snd (attach w)))
    !! printZodSchema ListResourceTemplatesRequestSchema
  = Some (BusFn ListResourceTemplates).
Proof.
  intros H. unfold attach.
  do 5 (erewrite bind_Ok
          by (apply Server_setRequestHandler_overridden; exact H)).
  cbn. apply lookup_insert_eq.
Qed.

(** X15.  Attaching a bus a second time registers its five handlers with
    itself: the registry then holds the list-resource-templates handler of
    the bus as its own fallback, and a list-resource-templates request
    produces no answer at any depth of nesting, the handler calling itself
    without end. *)
Theorem second_attach_registers_the_bus_with_itself (w : World) (fuel : nat)
    (request extra : Value) :
  let w2 := snd (attach (snd (attach w))) in
  requestHandlers (bus w2) !! printZodSchema ListResourceTemplatesRequestSchema
  = Some (BusFn ListResourceTemplates)
  ∧ handle fuel ListResourceTemplates request extra w2 = (Pending, w2).
Proof.
  intros w2. destruct (attach_overrides w) as (_ & Hover & _).
  pose proof (attach_again (snd (attach w)) Hover) as Hreg. fold w2 in Hreg.
  split; [done|]. by apply self_registered_never_answers.
Qed.


(** ** [updateResource] when its detached work fails *)

(** X16.  On a bus that was never attached, [updateResource] still reads
    the messages of the thread and writes its two warnings, then fails on
    the missing server inside the detached work: no notification is sent,
    and the caller is told nothing, its call resolving as usual. *)
Theorem updateResource_unattached (uri id : list N) (w : World)
    (messages : option (list ChatNotificationMessage)) (x : Ext) :
  server (bus w) = false →
  readMessages (bus w) (VStr uri) (ext w) = (Ok messages, x) →
  fst (updateResource uri id w) = Ok tt
  ∧ notifications (log (snd (updateResource uri id w))) = notifications (log w)
  ∧ ext (snd (updateResource uri id w)) = x
  ∧ ∃ msg,
      log (snd (updateResource uri id w))
      = log w ++ [ EReadMessages (VStr uri);
                   EConsoleWarn [ VStr (js "sending notification 1") ];
                   EConsoleWarn [ VStr (js "sending notification 2"); msg ] ].
Proof.
  intros Hserver Hread. rewrite updateResource_eq, Hread, Hserver.
  cbn [fst snd]. split; [done|]. split.
  - cbn [log with_ext with_log]. rewrite notifications_app. cbn.
    by rewrite app_nil_r.
  - split; [done|]. by eexists.
Qed.

(** X17.  When [readMessages] throws or never settles, [updateResource]
    has made that one call and nothing else: no warning is written, no
    notification is sent, and the call still resolves. *)
Theorem updateResource_read_failure (uri id : list N) (w : World)
    (r : Result (option (list ChatNotificationMessage))) (x : Ext) :
  readMessages (bus w) (VStr uri) (ext w) = (r, x) →
  (∀ messages, r ≠ Ok messages) →
  updateResource uri id w = (Ok tt, logged (EReadMessages (VStr uri)) x w).
Proof.
  intros Hread Hr. rewrite updateResource_eq, Hread.
  destruct r as [messages| |]; [by destruct (Hr messages)|done..].
Qed.

(** ** [updateResourceList] (lines 254-267) *)

(** The transport the host is connected to, [undefined] when it is not,
    and the host's [sendResourceListChanged]. *)
Variable Server_transport : Ext → Value.
Variable Server_sendResourceListChanged : App unit.

(** [!!v]. *)
Definition truthy (v : Value) : bool :=
  match v with
  | VUndefined | VNull => false
  | VBool b => b
  | VNum x => negb (PrimFloat.eqb x 0 || PrimFloat.is_nan x)
  | VStr s => negb (bool_decide (s = []))
  | VArr _ | VObj _ => true
  end.

(** [v?.key]. *)
Definition optional_get (v : Value) (key : list N) : Value :=
  match v with
  | VUndefined | VNull => VUndefined
  | _ => match get v key with inr r => r | inl _ => VUndefined end
  end.

(** [this.server.transport], read off the host. *)
Definition server_transport : M Value := λ w, (Ok (Server_transport (ext w)), w).

(** Lines 254-256. *)
Definition isServerTransportStarted : M bool :=
  self ← this;
  if server self
  then transport ← server_transport;
       ret (truthy (optional_get transport (js "_started")))
  else ret false.

(** Lines 263-267; the promise of [sendResourceListChanged] is left
    alone. *)
Definition updateResourceList : M unit :=
  started ← isServerTransportStarted;
  if started : bool
  then floating (await Server_sendResourceListChanged)
  else ret tt.

Lemma updateResourceList_eq w :
  updateResourceList w
  = (Ok tt,
     if server (bus w)
        && truthy (optional_get (Server_transport (ext w)) (js "_started"))
     then with_ext (snd (Server_sendResourceListChanged (ext w))) w
     else w).
Proof.
  unfold updateResourceList, isServerTransportStarted, server_transport.
  unfold_M. cbv beta iota zeta.
  destruct (server (bus w)); cbv beta iota zeta; [|done].
  destruct (truthy (optional_get (Server_transport (ext w)) (js "_started")));
    cbv beta iota zeta; [|done].
  by destruct (Server_sendResourceListChanged (ext w)).
Qed.

(** X18.  [updateResourceList] never throws and never touches the bus,
    the host's handlers or the log.  It does nothing at all on a bus that
    is not attached or whose host has no transport, or a transport whose
    [_started] is not truthy; on an attached bus with a started transport
    it calls [sendResourceListChanged] once and drops what that returns. *)
Theorem updateResourceList_spec (w : World) :
  let w' := snd (updateResourceList w) in
  fst (updateResourceList w) = Ok tt
  ∧ bus w' = bus w ∧ host w' = host w ∧ log w' = log w
  ∧ (server (bus w) = false → w' = w)
  ∧ (Server_transport (ext w) = VUndefined → w' = w)
  ∧ (truthy (optional_get (Server_transport (ext w)) (js "_started")) = false →
     w' = w)
  ∧ (server (bus w) = true →
     truthy (optional_get (Server_transport (ext w)) (js "_started")) = true →
     ext w' = snd (Server_sendResourceListChanged (ext w))).
Proof.
  intros w'. subst w'. rewrite updateResourceList_eq. cbn [fst snd].
  split; [done|].
  split; [by destruct (_ && _)|]. split; [by destruct (_ && _)|].
  split; [by destruct (_ && _)|].
  split; [by intros ->|]. split; [by intros ->; rewrite andb_false_r|].
  split; [by intros ->; rewrite andb_false_r|].
  by intros -> ->.
Qed.


(** X19.  The list-resources handler fetches the resources before it asks
    the registered handler, the other way round from list-tools.  When
    [getResources] throws, the request throws the same error and the
    registered handler is not asked; when the resources arrive and the
    registered handler throws, the request throws that error and the
    resources are dropped. *)
Theorem listResources_fetches_first (fuel : nat) (request extra : Value)
    (w : World) :
  (∀ e x,
     getResources (bus w) (ext w) = (Throw e, x) →
     handle (S fuel) ListResources request extra w
     = (Throw e, logged EGetResources x w))
  ∧ (∀ resources x handler e x',
     getResources (bus w) (ext w) = (Ok resources, x) →
     requestHandlers (bus w) !! printZodSchema ListResourcesRequestSchema
     = Some (AppFn handler) →
     handler request extra x = (Throw e, x') →
     handle (S fuel) ListResources request extra w
     = (Throw e, with_ext x' (logged EGetResources x w))).
Proof.
  rewrite handle_S. unfold listResourcesHandler. split.
  - intros e x Hres.
    rewrite (bind_Throw _ _ w (logged EGetResources x w) e); [done|].
    by rewrite call_getResources_eq, Hres.
  - intros resources x handler e x' Hres Hreg Hh.
    rewrite (bind_Ok _ _ w (logged EGetResources x w) resources)
      by (by rewrite call_getResources_eq, Hres).
    cbv zeta. rewrite (bind_Ok _ _ _ _ _ (requestHandlers_get_eq _ _)).
    change (bus (logged EGetResources x w)) with (bus w). rewrite Hreg.
    rewrite (bind_Throw _ _ (logged EGetResources x w)
               (with_ext x' (logged EGetResources x w)) e); [done|].
    rewrite invoke_AppFn. change (ext (logged EGetResources x w)) with x.
    by rewrite Hh.
Qed.

End MCPMessageBus.

(** * Instances *)

Lemma parseChatProtocolUrl_spec_witness :
  parseChatProtocolUrl (js "chat+a:///x" ++ [10%N] ++ js "y")
  = Some (js "chat+a", js "x")
  ∧ parseChatProtocolUrl (js "chat+discord:///1234567890/1234567890")
    = Some (js "chat+discord", js "1234567890/1234567890")
  ∧ parseChatProtocolUrl (js "bad") = None.
Proof.
  destruct parseChatProtocolUrl_spec as (H1 & H2 & H3).
  split; [|split].
  - apply (H1 (js "a") (js "x" ++ [10%N] ++ js "y")); [done|].
    apply (bool_decide_unpack _). vm_compute. exact I.
  - apply (H2 (js "discord") (js "1234567890/1234567890")); [done| |].
    + apply (bool_decide_unpack _). vm_compute. exact I.
    + apply (bool_decide_unpack _). vm_compute. exact I.
  - apply H3. intros p rest _ _ Heq. cbv in Heq. discriminate Heq.
Defined.

(** ** A small application

    The state of the application counts the calls it has served.  Two
    threads on protocol [chat+a], one on [chat+b]; one message in every
    thread; request kinds printed as their method names. *)

Definition demo_print (kind : Kind) : list N :=
  match kind with
  | ListTools => js "tools/list"
  | CallTool => js "tools/call"
  | ReadResource => js "resources/read"
  | ListResources => js "resources/list"
  | ListResourceTemplates => js "resources/templates/list"
  end.

Definition demo_stringify (value replacer space : Value) : Value :=
  VStr (js "<json>").

Definition demo_send (params : Value) : App (Ext := nat) unit :=
  λ n, (Ok tt, S n).

Definition demo_resource (uri : string) : Resource :=
  {| Resource_uri := js uri; Resource_name := js "thread";
     Resource_description := None |}.

Definition demo_resources : list Resource :=
  [ demo_resource "chat+a:///x"; demo_resource "chat+b:///y";
    demo_resource "chat+a:///z" ].

Definition demo_message : ChatNotificationMessage :=
  {| Message_id := js "m1"; Message_uri := js "chat+a:///x";
     Message_author := {| Author_name := js "User1"; Author_id := js "user1" |};
     Message_content := js "Hello world!";
     Message_timestamp := js "2025-01-01T00:00:00.000Z" |}.

Definition demo_template : ResourceTemplate :=
  {| Template_uriTemplate := js "chat+a:///{thread}";
     Template_name := js "My Custom Chat";
     Template_description := Some (js "Chat resources") |}.

(** A handler of the application: it answers every request with one tool
    and one content item of its own. *)
Definition demo_response : Value :=
  VObj [ (js "tools", VArr [ VObj [ (js "name", VStr (js "echo")) ] ]);
         (js "content", VArr [ VStr (js "other") ]);
         (js "contents", VArr [ VStr (js "other") ]) ].

Definition demo_handler (request extra : Value) : App (Ext := nat) Value :=
  λ n, (Ok demo_response, S n).

Definition demo_bus (resources : list Resource)
    (messages : option (list ChatNotificationMessage))
    (summaryText : option (list N))
    (registry : gmap (list N) (Fn (Ext := nat))) (attached : bool)
    : MCPMessageBus :=
  {| getResources := λ n, (Ok (Some resources), S n);
     readMessages := λ uri n, (Ok messages, S n);
     writeMessage := λ uri message n, (Ok summaryText, S n);
     resourceTemplate := demo_template;
     requestHandlers := registry;
     server := attached |}.

Definition demo_world (b : MCPMessageBus (Ext := nat)) : World (Schema := Kind) :=
  {| bus := b;
     host := {| setRequestHandler_overridden := false; Server_registered := [] |};
     ext := 0;
     log := [] |}.

Definition demo_callTool (name : string) : Value :=
  VObj [ (js "method", VStr (js "tools/call"));
         (js "params",
           VObj [ (js "name", VStr (js name));
                  (js "arguments",
                    VObj [ (js "uri", VStr (js "chat+a:///x"));
                           (js "message", VStr (js "hi")) ]) ]) ].

Definition demo_readResource : Value :=
  VObj [ (js "method", VStr (js "resources/read"));
         (js "params", VObj [ (js "uri", VStr (js "chat+a:///x")) ]) ].

Definition demo_handle : nat → Kind → Value → Value → M Value :=
  handle (Ext := nat) demo_print ListTools CallTool ReadResource ListResources
    ListResourceTemplates demo_stringify.

Definition demo_invoke : nat → Fn → Value → Value → M Value :=
  invoke (Ext := nat) demo_print ListTools CallTool ReadResource ListResources
    ListResourceTemplates demo_stringify.

Definition demo_updateResource : list N → list N → M unit :=
  updateResource (Ext := nat) (Schema := Kind) demo_send demo_send.

Definition demo_attach : M unit :=
  attach (Ext := nat) demo_print ListTools CallTool ReadResource ListResources
    ListResourceTemplates.

Definition demo_steps : list Op → World → World :=
  steps (Ext := nat) demo_print ListTools CallTool ReadResource ListResources
    ListResourceTemplates demo_stringify demo_send demo_send.

(** * Instances *)

Lemma getProtocols_fail_fast_witness :
  ∃ before r' after,
    [ demo_resource "chat+a:///x"; demo_resource "bad" ] = before ++ r' :: after
    ∧ Forall (λ r, is_Some (parseChatProtocolUrl (Resource_uri r))) before
    ∧ parseChatProtocolUrl (Resource_uri r') = None
    ∧ fst (getProtocols
             (demo_world
                (demo_bus [ demo_resource "chat+a:///x"; demo_resource "bad" ]
                   None None ∅ true)))
      = Throw (Error (js "Failed to parse resource URI: " ++ Resource_uri r')).
Proof.
  apply (getProtocols_fail_fast _ _ 1 (demo_resource "bad")).
  - reflexivity.
  - apply list_elem_of_further, list_elem_of_here.
  - reflexivity.
Defined.

Lemma getProtocols_deduplicated_image_witness :
  let w := demo_world (demo_bus demo_resources None None ∅ true) in
  let w' :=
    demo_world
      (demo_bus [ demo_resource "chat+b:///y"; demo_resource "chat+a:///x";
                  demo_resource "chat+a:///z" ] None None ∅ true) in
  fst (getProtocols w) = Ok [ js "chat+a"; js "chat+b" ]
  ∧ fst (getProtocols w') = Ok [ js "chat+b"; js "chat+a" ]
  ∧ ∀ p, p ∈ [ js "chat+b"; js "chat+a" ] ↔ p ∈ [ js "chat+a"; js "chat+b" ].
Proof.
  intros w w'.
  destruct (getProtocols_deduplicated_image w w' (Some demo_resources)
              (Some [ demo_resource "chat+b:///y"; demo_resource "chat+a:///x";
                      demo_resource "chat+a:///z" ]) 1 1)
    as (ps & ps' & H1 & H2 & _ & _ & _ & _ & _ & H3).
  - reflexivity.
  - reflexivity.
  - repeat constructor; eexists; reflexivity.
  - apply perm_swap.
  - injection H1 as <-. injection H2 as <-. split; [reflexivity|].
    split; [reflexivity|]. exact H3.
Defined.

Lemma callTool_spec_witness :
  (let w := demo_world (demo_bus demo_resources None (Some (js "sent")) ∅ true) in
   fst (demo_handle 1 CallTool (demo_callTool "chat+a") VUndefined w)
   = Ok (VObj [ (js "content",
                  VArr [ VObj [ (js "type", VStr (js "text"));
                                (js "text", VStr (js "sent")) ] ]) ])
   ∧ writes (log (snd (demo_handle 1 CallTool (demo_callTool "chat+a") VUndefined w)))
     = [ (js "chat+a:///x", js "hi") ])
  ∧ (let w :=
       demo_world
         (demo_bus demo_resources None (Some (js "sent"))
            {[ demo_print CallTool := AppFn demo_handler ]} true) in
     demo_handle 1 CallTool (demo_callTool "echo") VUndefined w
     = demo_invoke 0 (AppFn demo_handler) (demo_callTool "echo") VUndefined
         (snd (getProtocols w)))
  ∧ (let w := demo_world (demo_bus demo_resources None (Some (js "sent")) ∅ true) in
     demo_handle 1 CallTool (demo_callTool "echo") VUndefined w
     = (Ok (VObj [ (js "content", VArr []) ]), snd (getProtocols w))).
Proof.
  split; [|split]; intros w.
  - destruct (callTool_spec demo_print ListTools CallTool ReadResource
                ListResources ListResourceTemplates demo_stringify 0
                (demo_callTool "chat+a") VUndefined _ _ _ w
                (snd (getProtocols w)) [ js "chat+a"; js "chat+b" ]
                eq_refl eq_refl eq_refl eq_refl) as (H & _ & _).
    destruct (H (js "chat+a") (js "chat+a:///x") (js "hi")) as [H1 H2].
    + reflexivity.
    + apply (bool_decide_unpack _). vm_compute. exact I.
    + reflexivity.
    + split; [|exact H2]. unfold demo_handle. by rewrite H1.
  - destruct (callTool_spec demo_print ListTools CallTool ReadResource
                ListResources ListResourceTemplates demo_stringify 0
                (demo_callTool "echo") VUndefined _ _ _ w
                (snd (getProtocols w)) [ js "chat+a"; js "chat+b" ]
                eq_refl eq_refl eq_refl eq_refl) as (_ & H & _).
    apply H.
    + intros p [= <-]. apply (bool_decide_unpack _). vm_compute. exact I.
    + reflexivity.
  - destruct (callTool_spec demo_print ListTools CallTool ReadResource
                ListResources ListResourceTemplates demo_stringify 0
                (demo_callTool "echo") VUndefined _ _ _ w
                (snd (getProtocols w)) [ js "chat+a"; js "chat+b" ]
                eq_refl eq_refl eq_refl eq_refl) as (_ & _ & H).
    apply H.
    + intros p [= <-]. apply (bool_decide_unpack _). vm_compute. exact I.
    + reflexivity.
Defined.

Lemma callTool_absent_summary_witness :
  let w := demo_world (demo_bus demo_resources None None
                         {[ demo_print CallTool := AppFn demo_handler ]} true) in
  demo_handle 1 CallTool (demo_callTool "chat+b") VUndefined w
  = (Ok (VObj [ (js "content",
                  VArr [ VObj [ (js "type", VStr (js "text"));
                                (js "text", VUndefined) ] ]) ]),
     logged (EWriteMessage (js "chat+a:///x") (js "hi")) 2
       (snd (getProtocols w))).
Proof.
  intros w.
  apply (callTool_absent_summary demo_print ListTools CallTool ReadResource
           ListResources ListResourceTemplates demo_stringify 0
           (demo_callTool "chat+b") VUndefined _ _ _ w
           (snd (getProtocols w)) [ js "chat+a"; js "chat+b" ] (js "chat+b")
           (js "chat+a:///x") (js "hi") 2 eq_refl eq_refl eq_refl eq_refl eq_refl).
  - apply (bool_decide_unpack _). vm_compute. exact I.
  - reflexivity.
  - reflexivity.
Defined.

Lemma listTools_spec_witness :
  (let w := demo_world (demo_bus demo_resources None None ∅ true) in
   demo_handle 1 ListTools VUndefined VUndefined w
   = (Ok (VObj [ (js "tools",
                   VArr (tool demo_template <$> [ js "chat+a"; js "chat+b" ])) ]),
      snd (getProtocols w)))
  ∧ (let w :=
       demo_world
         (demo_bus demo_resources None None
            {[ demo_print ListTools := AppFn demo_handler ]} true) in
     demo_handle 1 ListTools VUndefined VUndefined w
     = (Ok (VObj [ (js "tools",
                     VArr ([ VObj [ (js "name", VStr (js "echo")) ] ]
                           ++ (tool demo_template <$> [ js "chat+a"; js "chat+b" ]))) ]),
        snd (getProtocols
               (snd (demo_invoke 0 (AppFn demo_handler) VUndefined VUndefined w)))))
  ∧ get (tool demo_template (js "chat+a")) (js "name") = inr (VStr (js "chat+a")).
Proof.
  split; [|split].
  - intros w.
    destruct (listTools_spec demo_print ListTools CallTool ReadResource
                ListResources ListResourceTemplates demo_stringify 0
                VUndefined VUndefined w) as (H & _ & _).
    apply (H [ js "chat+a"; js "chat+b" ] (snd (getProtocols w)));
      reflexivity.
  - intros w.
    destruct (listTools_spec demo_print ListTools CallTool ReadResource
                ListResources ListResourceTemplates demo_stringify 0
                VUndefined VUndefined w) as (_ & H & _).
    apply (H (AppFn demo_handler) demo_response
             [ VObj [ (js "name", VStr (js "echo")) ] ]
             (snd (demo_invoke 0 (AppFn demo_handler) VUndefined VUndefined w))
             [ js "chat+a"; js "chat+b" ]
             (snd (getProtocols
                     (snd (demo_invoke 0 (AppFn demo_handler) VUndefined
                             VUndefined w)))));
      reflexivity.
  - destruct (listTools_spec demo_print ListTools CallTool ReadResource
                ListResources ListResourceTemplates demo_stringify 0
                VUndefined VUndefined
                (demo_world (demo_bus demo_resources None None ∅ true)))
      as (_ & _ & H).
    apply (H (js "chat+a")).
Defined.

Lemma readResource_spec_witness :
  (let w := demo_world (demo_bus demo_resources (Some [ demo_message ]) None ∅ true) in
   demo_handle 1 ReadResource demo_readResource VUndefined w
   = (Ok (VObj [ (js "contents",
            VArr [ VObj [ (js "uri", VStr (js "chat+a:///x"));
                          (js "mimeType", VStr (js "application/json"));
                          (js "text",
                            demo_stringify
                              (VObj [ (js "uri", VStr (js "chat+a:///x"));
                                      (js "messages",
                                        VArr (Message_toValue <$> [ demo_message ])) ])
                              VNull (VNum 2)) ] ]) ]),
      logged (EReadMessages (VStr (js "chat+a:///x"))) 1 w))
  ∧ (let w :=
       demo_world
         (demo_bus demo_resources None None
            {[ demo_print ReadResource := AppFn demo_handler ]} true) in
     demo_handle 1 ReadResource demo_readResource VUndefined w
     = demo_invoke 0 (AppFn demo_handler) demo_readResource VUndefined
         (logged (EReadMessages (VStr (js "chat+a:///x"))) 1 w))
  ∧ (let w := demo_world (demo_bus demo_resources None None ∅ true) in
     demo_handle 1 ReadResource demo_readResource VUndefined w
     = (Ok (VObj [ (js "contents", VArr []) ]),
        logged (EReadMessages (VStr (js "chat+a:///x"))) 1 w)).
Proof.
  split; [|split]; intros w.
  - destruct (readResource_spec demo_print ListTools CallTool ReadResource
                ListResources ListResourceTemplates demo_stringify 0
                demo_readResource VUndefined _ (VStr (js "chat+a:///x")) w 1
                eq_refl eq_refl) as (H & _ & _).
    apply (H [ demo_message ]). reflexivity.
  - destruct (readResource_spec demo_print ListTools CallTool ReadResource
                ListResources ListResourceTemplates demo_stringify 0
                demo_readResource VUndefined _ (VStr (js "chat+a:///x")) w 1
                eq_refl eq_refl) as (_ & H & _).
    apply (H (AppFn demo_handler)); reflexivity.
  - destruct (readResource_spec demo_print ListTools CallTool ReadResource
                ListResources ListResourceTemplates demo_stringify 0
                demo_readResource VUndefined _ (VStr (js "chat+a:///x")) w 1
                eq_refl eq_refl) as (_ & _ & H).
    apply H; reflexivity.
Defined.

Lemma updateResource_content_updated_witness :
  let w := demo_world (demo_bus demo_resources (Some [ demo_message ]) None ∅ true) in
  ∃ content,
    fst (demo_updateResource (js "chat+a:///x") (js "m1") w) = Ok tt
    ∧ notifications (log (snd (demo_updateResource (js "chat+a:///x") (js "m1") w)))
      = notifications (log w)
        ++ [ VObj [ (js "method",
                      VStr (js "notifications/resources/content_updated"));
                    (js "params", VObj [ (js "content", content) ]) ] ]
    ∧ ((∃ before m after,
          [ demo_message ] = before ++ m :: after
          ∧ Message_id m = js "m1"
          ∧ Forall (λ m', Message_id m' ≠ js "m1") before
          ∧ content = Message_toValue m)
       ∨ (Forall (λ m', Message_id m' ≠ js "m1") [ demo_message ]
          ∧ content = VNull)).
Proof.
  intros w.
  apply (updateResource_content_updated demo_send demo_send
           (js "chat+a:///x") (js "m1") w (Some [ demo_message ]) 1);
    reflexivity.
Defined.

Lemma registrations_after_attach_are_captured_witness :
  let w1 :=
    snd (demo_attach (demo_world (demo_bus demo_resources None None ∅ false))) in
  let ops :=
    [ Register CallTool (AppFn demo_handler);
      Request 2 CallTool (demo_callTool "echo") VUndefined;
      NewMessage (js "chat+a:///x") (js "m1") ] in
  host (demo_steps ops w1) = host w1
  ∧ requestHandlers
      (bus (demo_steps (ops ++ [ Register CallTool (BusFn ListTools) ]) w1))
      !! demo_print CallTool
    = Some (BusFn ListTools)
  ∧ is_Some
      (requestHandlers
         (bus (demo_steps (ops ++ [ Register ListTools (BusFn ListTools) ]) w1))
         !! demo_print CallTool).
Proof.
  intros w1 ops.
  destruct (registrations_after_attach_are_captured demo_print ListTools
              CallTool ReadResource ListResources ListResourceTemplates
              demo_stringify demo_send demo_send
              (demo_world (demo_bus demo_resources None None ∅ false)) ops)
    as (_ & _ & H1 & _ & H2 & H3).
  split; [exact H1|]. split; [apply (H2 CallTool)|].
  apply (H3 [ Register ListTools (BusFn ListTools) ] (demo_print CallTool)).
  vm_compute. by eexists.
Defined.

(** The log of one [updateResource] on the attached demo bus: the read,
    the two warnings, the content-updated notification, and nothing else. *)
Example updateResource_demo_log :
  log (snd (demo_updateResource (js "chat+a:///x") (js "m1")
              (demo_world
                 (demo_bus demo_resources (Some [ demo_message ]) None ∅ true))))
  = [ EReadMessages (VStr (js "chat+a:///x"));
      EConsoleWarn [ VStr (js "sending notification 1") ];
      EConsoleWarn [ VStr (js "sending notification 2");
                     contentUpdated (Message_toValue demo_message) ];
      ENotification (contentUpdated (Message_toValue demo_message)) ].
Proof. reflexivity. Qed.

(** ** More of the small application *)

Definition demo_lists_response : Value :=
  VObj [ (js "resources", VArr [ VObj [ (js "uri", VStr (js "file:///a")) ] ]);
         (js "resourceTemplates",
           VArr [ VObj [ (js "name", VStr (js "Files")) ] ]) ].

(** Three more handlers of the application: one that answers the two
    listing requests, one that throws, one that answers with nothing. *)
Definition demo_lists_handler (request extra : Value) : App (Ext := nat) Value :=
  λ n, (Ok demo_lists_response, S n).

Definition demo_throwing_handler (request extra : Value) : App (Ext := nat) Value :=
  λ n, (Throw (Thrown (VStr (js "boom"))), S n).

Definition demo_empty_handler (request extra : Value) : App (Ext := nat) Value :=
  λ n, (Ok (VObj []), S n).

(** A bus whose [readMessages] ends as told. *)
Definition demo_bus_reading
    (r : Result (option (list ChatNotificationMessage)))
    (registry : gmap (list N) (Fn (Ext := nat))) : MCPMessageBus :=
  {| getResources := λ n, (Ok (Some demo_resources), S n);
     readMessages := λ uri n, (r, S n);
     writeMessage := λ uri message n, (Ok None, S n);
     resourceTemplate := demo_template;
     requestHandlers := registry;
     server := true |}.

(** A host that is connected once the application has served a call. *)
Definition demo_transport (n : nat) : Value :=
  match n with
  | 0 => VUndefined
  | S _ => VObj [ (js "_started", VBool true) ]
  end.

Definition demo_updateResourceList : M unit :=
  updateResourceList (Ext := nat) (Schema := Kind) demo_transport
    (demo_send VUndefined).

Definition demo_step : Op → World → World :=
  step (Ext := nat) demo_print ListTools CallTool ReadResource ListResources
    ListResourceTemplates demo_stringify demo_send demo_send.

Definition demo_bad_resources : list Resource :=
  [ demo_resource "chat+a:///x"; demo_resource "bad" ].

Definition demo_callTool_without_message : Value :=
  VObj [ (js "method", VStr (js "tools/call"));
         (js "params",
           VObj [ (js "name", VStr (js "chat+a"));
                  (js "arguments",
                    VObj [ (js "uri", VStr (js "chat+a:///x")) ]) ]) ].

(** * More instances *)

Lemma parseChatProtocolUrl_reads_a_prefix_witness :
  ∃ rest,
    js "chat+a:///x" ++ [10%N] ++ js "y"
    = js "chat+a" ++ js ":///" ++ js "x" ++ rest
    ∧ match rest with [] => True | c :: _ => isLineTerminator c = true end
    ∧ (∃ p, p ≠ [] ∧ js "chat+a" = js "chat+" ++ p)
    ∧ (colon ∉ js "chat+a")
    ∧ Forall (λ c, isLineTerminator c = false) (js "x").
Proof.
  apply (parseChatProtocolUrl_reads_a_prefix
           (js "chat+a:///x" ++ [10%N] ++ js "y")).
  reflexivity.
Defined.

Lemma parseChatProtocolUrl_round_trip_witness :
  parseChatProtocolUrl (js "chat+a" ++ js ":///" ++ js "x")
  = Some (js "chat+a", js "x").
Proof.
  apply (parseChatProtocolUrl_round_trip (js "chat+a:///x" ++ [10%N] ++ js "y")).
  reflexivity.
Defined.

Lemma parseChatProtocolUrl_ignores_further_lines_witness :
  parseChatProtocolUrl (js "chat+a:///x" ++ 8232%N :: js "anything: at all")
  = parseChatProtocolUrl (js "chat+a:///x").
Proof.
  apply parseChatProtocolUrl_ignores_further_lines.
  - eexists. reflexivity.
  - reflexivity.
Defined.

Lemma getProtocols_first_occurrence_order_witness :
  fst (getProtocols (demo_world (demo_bus demo_resources None None ∅ true)))
  = Ok [ js "chat+a"; js "chat+b" ].
Proof.
  apply (getProtocols_first_occurrence_order
           (demo_world (demo_bus demo_resources None None ∅ true))
           (Some demo_resources) 1).
  - reflexivity.
  - repeat constructor; eexists; reflexivity.
Defined.

Lemma callTool_discovery_failure_witness :
  let w := demo_world (demo_bus demo_bad_resources None None
                         {[ demo_print CallTool := AppFn demo_handler ]} true) in
  demo_handle 1 CallTool (demo_callTool "echo") VUndefined w
  = (Throw (Error (js "Failed to parse resource URI: bad")),
     snd (getProtocols w))
  ∧ snd (getProtocols w) = logged EGetResources 1 w.
Proof.
  intros w.
  apply (callTool_discovery_failure demo_print ListTools CallTool ReadResource
           ListResources ListResourceTemplates demo_stringify 0
           (demo_callTool "echo") VUndefined _ _ _ w (snd (getProtocols w))
           (Error (js "Failed to parse resource URI: bad"))
           eq_refl eq_refl eq_refl eq_refl).
Defined.

Lemma callTool_invalid_arguments_witness :
  let w := demo_world (demo_bus demo_resources None (Some (js "sent"))
                         {[ demo_print CallTool := AppFn demo_handler ]} true) in
  demo_handle 1 CallTool demo_callTool_without_message VUndefined w
  = (Throw ZodError, snd (getProtocols w))
  ∧ writes (log (snd (getProtocols w))) = writes (log w).
Proof.
  intros w.
  apply (callTool_invalid_arguments demo_print ListTools CallTool ReadResource
           ListResources ListResourceTemplates demo_stringify 0
           demo_callTool_without_message VUndefined _ _ _ w
           (snd (getProtocols w)) [ js "chat+a"; js "chat+b" ] (js "chat+a")
           eq_refl eq_refl eq_refl eq_refl eq_refl).
  - apply (bool_decide_unpack _). vm_compute. exact I.
  - intros uri message H. cbv in H. discriminate H.
Defined.

Lemma listTools_asks_fallback_first_witness :
  (let w :=
     demo_world (demo_bus demo_resources None None
                   {[ demo_print ListTools := AppFn demo_throwing_handler ]} true) in
   demo_handle 1 ListTools VUndefined VUndefined w
   = (Throw (Thrown (VStr (js "boom"))), with_ext 1 w))
  ∧ (let w :=
       demo_world (demo_bus demo_bad_resources None None
                     {[ demo_print ListTools := AppFn demo_handler ]} true) in
     demo_handle 1 ListTools VUndefined VUndefined w
     = (Throw (Error (js "Failed to parse resource URI: bad")),
        snd (getProtocols (with_ext 1 w)))
     ∧ ext (snd (getProtocols (with_ext 1 w))) = 2).
Proof.
  split; intros w.
  - destruct (listTools_asks_fallback_first demo_print ListTools CallTool
                ReadResource ListResources ListResourceTemplates demo_stringify
                0 VUndefined VUndefined w demo_throwing_handler eq_refl)
      as [H _].
    apply (H (Thrown (VStr (js "boom"))) 1). reflexivity.
  - destruct (listTools_asks_fallback_first demo_print ListTools CallTool
                ReadResource ListResources ListResourceTemplates demo_stringify
                0 VUndefined VUndefined w demo_handler eq_refl)
      as [_ H].
    apply (H demo_response 1
             (Error (js "Failed to parse resource URI: bad"))
             (snd (getProtocols (with_ext 1 w)))); reflexivity.
Defined.

Lemma listTools_fallback_without_tools_witness :
  let w :=
    demo_world (demo_bus demo_resources None None
                  {[ demo_print ListTools := AppFn demo_empty_handler ]} true) in
  demo_handle 1 ListTools VUndefined VUndefined w
  = (Throw TypeError, snd (getProtocols (with_ext 1 w))).
Proof.
  intros w.
  apply (listTools_fallback_without_tools demo_print ListTools CallTool
           ReadResource ListResources ListResourceTemplates demo_stringify
           0 VUndefined VUndefined w (with_ext 1 w)
           (snd (getProtocols (with_ext 1 w))) (AppFn demo_empty_handler)
           (VObj []) [ js "chat+a"; js "chat+b" ]).
  - reflexivity.
  - reflexivity.
  - reflexivity.
  - exact I.
Defined.

Lemma listResources_spec_witness :
  (let w := demo_world (demo_bus demo_resources None None ∅ true) in
   demo_handle 1 ListResources VUndefined VUndefined w
   = (Ok (VObj [ (js "resources", VArr (Resource_toValue <$> demo_resources)) ]),
      logged EGetResources 1 w))
  ∧ (let w :=
       demo_world (demo_bus demo_resources None None
                     {[ demo_print ListResources := AppFn demo_lists_handler ]}
                     true) in
     demo_handle 1 ListResources VUndefined VUndefined w
     = (Ok (VObj [ (js "resources",
                     VArr ((Resource_toValue <$> demo_resources)
                           ++ [ VObj [ (js "uri", VStr (js "file:///a")) ] ])) ]),
        with_ext 2 (logged EGetResources 1 w))).
Proof.
  split; intros w.
  - destruct (listResources_spec demo_print ListTools CallTool ReadResource
                ListResources ListResourceTemplates demo_stringify 0
                VUndefined VUndefined w (Some demo_resources) 1 eq_refl)
      as [H _].
    apply H. reflexivity.
  - destruct (listResources_spec demo_print ListTools CallTool ReadResource
                ListResources ListResourceTemplates demo_stringify 0
                VUndefined VUndefined w (Some demo_resources) 1 eq_refl)
      as [_ H].
    apply (H (AppFn demo_lists_handler) demo_lists_response); reflexivity.
Defined.

Lemma malformed_resource_is_listed_but_breaks_tools_witness :
  let w := demo_world (demo_bus demo_bad_resources None None ∅ true) in
  (∃ listed,
     fst (demo_handle 1 ListResources VUndefined VUndefined w)
     = Ok (VObj [ (js "resources", VArr listed) ])
     ∧ Resource_toValue (demo_resource "bad") ∈ listed)
  ∧ ∃ uri, fst (demo_handle 1 CallTool (demo_callTool "chat+a") VUndefined w)
           = Throw (Error (js "Failed to parse resource URI: " ++ uri)).
Proof.
  intros w.
  eapply (malformed_resource_is_listed_but_breaks_tools demo_print ListTools
            CallTool ReadResource ListResources ListResourceTemplates
            demo_stringify 0 VUndefined VUndefined (demo_callTool "chat+a")
            _ _ _ w demo_bad_resources 1 (demo_resource "bad")).
  - reflexivity.
  - apply list_elem_of_further, list_elem_of_here.
  - reflexivity.
  - reflexivity.
  - reflexivity.
  - reflexivity.
  - reflexivity.
Defined.

Lemma listResourceTemplates_spec_witness :
  (let w := demo_world (demo_bus demo_resources None None ∅ true) in
   demo_handle 1 ListResourceTemplates VUndefined VUndefined w
   = (Ok (VObj [ (js "resourceTemplates",
                   VArr [ Template_toValue demo_template ]) ]), w))
  ∧ (let w :=
       demo_world
         (demo_bus demo_resources None None
            {[ demo_print ListResourceTemplates := AppFn demo_lists_handler ]}
            true) in
     demo_handle 1 ListResourceTemplates VUndefined VUndefined w
     = (Ok (VObj [ (js "resourceTemplates",
                     VArr [ Template_toValue demo_template;
                            VObj [ (js "name", VStr (js "Files")) ] ]) ]),
        with_ext 1 w)).
Proof.
  split; intros w.
  - destruct (listResourceTemplates_spec demo_print ListTools CallTool
                ReadResource ListResources ListResourceTemplates demo_stringify
                0 VUndefined VUndefined w) as [H _].
    apply H. reflexivity.
  - destruct (listResourceTemplates_spec demo_print ListTools CallTool
                ReadResource ListResources ListResourceTemplates demo_stringify
                0 VUndefined VUndefined w) as [_ H].
    apply (H (AppFn demo_lists_handler) demo_lists_response); reflexivity.
Defined.

Lemma readResource_failure_is_not_delegated_witness :
  (let w :=
     demo_world
       (demo_bus_reading (Throw (Thrown (VStr (js "offline"))))
          {[ demo_print ReadResource := AppFn demo_handler ]}) in
   demo_handle 1 ReadResource demo_readResource VUndefined w
   = (Throw (Thrown (VStr (js "offline"))),
      logged (EReadMessages (VStr (js "chat+a:///x"))) 1 w))
  ∧ (let w :=
       demo_world
         (demo_bus_reading Pending
            {[ demo_print ReadResource := AppFn demo_handler ]}) in
     demo_handle 1 ReadResource demo_readResource VUndefined w
     = (Pending, logged (EReadMessages (VStr (js "chat+a:///x"))) 1 w)).
Proof.
  split; intros w.
  - destruct (readResource_failure_is_not_delegated demo_print ListTools
                CallTool ReadResource ListResources ListResourceTemplates
                demo_stringify 0 demo_readResource VUndefined _
                (VStr (js "chat+a:///x")) w 1 eq_refl eq_refl) as [H _].
    apply H. reflexivity.
  - destruct (readResource_failure_is_not_delegated demo_print ListTools
                CallTool ReadResource ListResources ListResourceTemplates
                demo_stringify 0 demo_readResource VUndefined _
                (VStr (js "chat+a:///x")) w 1 eq_refl eq_refl) as [_ H].
    apply H. reflexivity.
Defined.

Lemma handler_registered_after_attach_is_reached_witness :
  let w2 :=
    demo_step (Register CallTool (AppFn demo_handler))
      (snd (demo_attach (demo_world (demo_bus demo_resources None None ∅ false)))) in
  demo_handle 1 CallTool (demo_callTool "echo") VUndefined w2
  = (Ok demo_response, with_ext 2 (snd (getProtocols w2))).
Proof.
  intros w2.
  apply (handler_registered_after_attach_is_reached demo_print ListTools
           CallTool ReadResource ListResources ListResourceTemplates
           demo_stringify demo_send demo_send 0 (demo_callTool "echo")
           VUndefined _ _ _
           (demo_world (demo_bus demo_resources None None ∅ false))
           (snd (getProtocols w2)) CallTool demo_handler
           [ js "chat+a"; js "chat+b" ] eq_refl eq_refl eq_refl eq_refl eq_refl).
  intros p [= <-]. apply (bool_decide_unpack _). vm_compute. exact I.
Defined.

Lemma registrations_before_attach_stay_with_host_witness :
  let w := demo_world (demo_bus demo_resources None None ∅ false) in
  let ops :=
    [ Register CallTool (AppFn demo_handler);
      Request 1 ListResourceTemplates VUndefined VUndefined;
      Register ListTools (AppFn demo_lists_handler) ] in
  requestHandlers (bus (demo_steps ops w)) = ∅
  ∧ Server_registered (host (demo_steps ops w))
    = [ (ListTools, AppFn demo_lists_handler); (CallTool, AppFn demo_handler) ]
  ∧ requestHandlers (bus (snd (demo_attach (demo_steps ops w)))) = ∅
  ∧ Server_registered (host (snd (demo_attach (demo_steps ops w))))
    = [ (ListResourceTemplates, BusFn ListResourceTemplates);
        (ListResources, BusFn ListResources);
        (ReadResource, BusFn ReadResource);
        (CallTool, BusFn CallTool);
        (ListTools, BusFn ListTools);
        (ListTools, AppFn demo_lists_handler);
        (CallTool, AppFn demo_handler) ].
Proof.
  intros w ops.
  apply (registrations_before_attach_stay_with_host demo_print ListTools
           CallTool ReadResource ListResources ListResourceTemplates
           demo_stringify demo_send demo_send w ops).
  reflexivity.
Defined.

Lemma updateResource_unattached_witness :
  let w := demo_world (demo_bus demo_resources (Some [ demo_message ]) None ∅ false) in
  fst (demo_updateResource (js "chat+a:///x") (js "m1") w) = Ok tt
  ∧ notifications (log (snd (demo_updateResource (js "chat+a:///x") (js "m1") w)))
    = notifications (log w)
  ∧ ext (snd (demo_updateResource (js "chat+a:///x") (js "m1") w)) = 1
  ∧ ∃ msg,
      log (snd (demo_updateResource (js "chat+a:///x") (js "m1") w))
      = log w ++ [ EReadMessages (VStr (js "chat+a:///x"));
                   EConsoleWarn [ VStr (js "sending notification 1") ];
                   EConsoleWarn [ VStr (js "sending notification 2"); msg ] ].
Proof.
  intros w.
  apply (updateResource_unattached demo_send demo_send (js "chat+a:///x")
           (js "m1") w (Some [ demo_message ]) 1); reflexivity.
Defined.

Lemma updateResource_read_failure_witness :
  let w := demo_world (demo_bus_reading (Throw (Thrown (VStr (js "offline")))) ∅) in
  demo_updateResource (js "chat+a:///x") (js "m1") w
  = (Ok tt, logged (EReadMessages (VStr (js "chat+a:///x"))) 1 w).
Proof.
  intros w.
  apply (updateResource_read_failure demo_send demo_send (js "chat+a:///x")
           (js "m1") w (Throw (Thrown (VStr (js "offline")))) 1).
  - reflexivity.
  - intros messages H. discriminate H.
Defined.

Lemma updateResourceList_spec_witness :
  (let w := demo_world (demo_bus demo_resources None None ∅ true) in
   snd (demo_updateResourceList w) = w)
  ∧ (let w := demo_world (demo_bus demo_resources None None ∅ false) in
     snd (demo_updateResourceList (with_ext 1 w)) = with_ext 1 w)
  ∧ (let w := demo_world (demo_bus demo_resources None None ∅ true) in
     ext (snd (demo_updateResourceList (with_ext 1 w))) = 2).
Proof.
  split; [|split]; intros w.
  - destruct (updateResourceList_spec demo_transport (demo_send VUndefined) w)
      as (_ & _ & _ & _ & _ & H & _).
    apply H. reflexivity.
  - destruct (updateResourceList_spec demo_transport (demo_send VUndefined)
                (with_ext 1 w)) as (_ & _ & _ & _ & H & _).
    apply H. reflexivity.
  - destruct (updateResourceList_spec demo_transport (demo_send VUndefined)
                (with_ext 1 w)) as (_ & _ & _ & _ & _ & _ & _ & H).
    apply H; reflexivity.
Defined.

(** A bus whose [getResources] throws. *)
Definition demo_bus_offline (registry : gmap (list N) (Fn (Ext := nat)))
    : MCPMessageBus :=
  {| getResources := λ n, (Throw (Thrown (VStr (js "offline"))), S n);
     readMessages := λ uri n, (Ok None, S n);
     writeMessage := λ uri message n, (Ok None, S n);
     resourceTemplate := demo_template;
     requestHandlers := registry;
     server := true |}.

Lemma listResources_fetches_first_witness :
  (let w :=
     demo_world
       (demo_bus_offline {[ demo_print ListResources := AppFn demo_lists_handler ]}) in
   demo_handle 1 ListResources VUndefined VUndefined w
   = (Throw (Thrown (VStr (js "offline"))), logged EGetResources 1 w))
  ∧ (let w :=
       demo_world
         (demo_bus demo_resources None None
            {[ demo_print ListResources := AppFn demo_throwing_handler ]} true) in
     demo_handle 1 ListResources VUndefined VUndefined w
     = (Throw (Thrown (VStr (js "boom"))),
        with_ext 2 (logged EGetResources 1 w))).
Proof.
  split; intros w.
  - destruct (listResources_fetches_first demo_print ListTools CallTool
                ReadResource ListResources ListResourceTemplates demo_stringify
                0 VUndefined VUndefined w) as [H _].
    apply H. reflexivity.
  - destruct (listResources_fetches_first demo_print ListTools CallTool
                ReadResource ListResources ListResourceTemplates demo_stringify
                0 VUndefined VUndefined w) as [_ H].
    apply (H (Some demo_resources) 1 demo_throwing_handler); reflexivity.
Defined.
